(** * react-native-paper: Surface and Appbar as pure render functions

    A shallow embedding of [src/components/Surface.tsx] and of the Appbar
    component.  Both components are functions from props and a theme to a
    tree of React elements; the embedding keeps the trees, the style arrays
    (before the host flattens them) and the places where the JavaScript
    would throw. *)

From stdpp Require Import gmap strings list fin_maps pretty.
From Stdlib Require Import QArith.

Set Warnings "-register-all".
Close Scope Q_scope.
#[local] Open Scope string_scope.

(** ** JavaScript values, style props and React nodes *)

(** An [Animated.Value] is an object with an identity; the components never
    read its current number. *)
Record AnimatedValue := { node_id : nat }.

Inductive JSValue :=
| VUndefined
| VBool (b : bool)
| VNum (q : Q)
| VStr (s : string)
| VAnimated (v : AnimatedValue)
| VInterpolation (v : AnimatedValue) (inputRange outputRange : list JSValue)
| VObj (fields : list (string * JSValue))
| VArr (items : list JSValue).

(** A number literal of the source that is a natural number. *)
Definition num (n : nat) : JSValue := VNum (inject_Z (Z.of_nat n)).

(** [typeof v === 'string'] *)
Definition is_string (v : JSValue) : bool :=
  match v with VStr _ => true | _ => false end.

(** JavaScript truthiness, as used by [?:], [&&] and [Array.filter]. *)
Definition truthy (v : JSValue) : bool :=
  match v with
  | VUndefined => false
  | VBool b => b
  | VNum q => negb (Qeq_bool q 0%Q)
  | VStr s => negb (String.eqb s "")
  | _ => true
  end.

(** Property read [o.k]: a missing key reads as [undefined]. *)
Definition prop (o : gmap string JSValue) (k : string) : JSValue :=
  default VUndefined (o !! k).

(** Destructuring default [{ k = d } = o]: the default applies exactly when
    the property reads as [undefined]. *)
Definition prop_default (o : gmap string JSValue) (k : string) (d : JSValue)
  : JSValue :=
  match prop o k with VUndefined => d | v => v end.

(** [StyleProp<ViewStyle>]: a falsy entry ([undefined], [null], [false]), a
    style object, or an array of style props. *)
Inductive StyleProp :=
| SFalsy
| SObj (o : gmap string JSValue)
| SArr (l : list StyleProp).

(** [StyleSheet.flatten] of the host framework: falsy gives [undefined], an
    object is returned as it is, an array is merged from left to right, a
    later key overwriting an earlier one (also when its value is
    [undefined]). *)
Fixpoint flatten (s : StyleProp) : option (gmap string JSValue) :=
  match s with
  | SFalsy => None
  | SObj o => Some o
  | SArr l =>
      Some (fold_left
              (fun acc x =>
                 match flatten x with Some o => o ∪ acc | None => acc end)
              l ∅)
  end.

(** What the host reads for key [k] once it has flattened [s]. *)
Definition style_prop (s : StyleProp) (k : string) : JSValue :=
  prop (default ∅ (flatten s)) k.

Inductive ComponentType :=
| View
| AnimatedView
| SurfaceComponent
| AppbarContent
| AppbarAction
| AppbarBackAction
| OtherComponent (name : string).

#[global] Instance ComponentType_eq_dec : EqDecision ComponentType.
Proof. solve_decision. Defined.

(** [React.ReactNode]: nothing ([null], [undefined], a boolean), text, an
    element with its type, props, style prop and JSX child slots, or an
    array of nodes. *)
Inductive ReactNode :=
| RNull
| RText (s : string)
| RElement (type : ComponentType) (props : gmap string JSValue)
           (style : StyleProp) (children : list ReactNode)
| RArray (l : list ReactNode).

(** [React.isValidElement] *)
Definition isValidElement (n : ReactNode) : bool :=
  match n with RElement _ _ _ _ => true | _ => false end.

(** The traversal order of [React.Children]: nested arrays are walked in
    order, every other node is one child. *)
Fixpoint Children_nodes (n : ReactNode) : list ReactNode :=
  match n with
  | RArray l => flat_map Children_nodes l
  | _ => [n]
  end.

Definition is_null (n : ReactNode) : bool :=
  match n with RNull => true | _ => false end.

(** [React.Children.toArray]: the traversal without the empty nodes. *)
Definition Children_toArray (n : ReactNode) : list ReactNode :=
  List.filter (fun c => negb (is_null c)) (Children_nodes n).

(** ** Exceptions *)

Inductive Exn :=
| TypeError     (* a property read on [undefined] *)
| ColorError.   (* the color parser rejects its input *)

Inductive Result (A : Type) :=
| Ok (a : A)
| Throw (e : Exn).
Arguments Ok {A} a.
Arguments Throw {A} e.

Definition bind {A B} (r : Result A) (k : A -> Result B) : Result B :=
  match r with Ok a => k a | Throw e => Throw e end.

Notation "'let!' x ':=' r 'in' k" := (bind r (fun x => k))
  (at level 10, x name, r at level 100, k at level 200).

(** ** Theme and platform *)

Inductive ThemeMode := adaptive | exact.

#[global] Instance ThemeMode_eq_dec : EqDecision ThemeMode.
Proof. solve_decision. Defined.

Module Colors.
(** Modelled from the spec: the color palette of [Theme] (declared in
    [src/types], not among the sources): named colors and, in the current
    design version, an optional table from [level0] .. [level5] to a
    color. *)
Record t := {
  surface : JSValue;
  elevation : option (gmap string JSValue)
}.
End Colors.

(** Modelled from the spec: the [Theme] type (declared in [src/types], not
    among the sources): dark flag, presentation mode, design version flag
    and palette. *)
Record Theme := {
  dark : bool;
  mode : option ThemeMode;
  isV3 : bool;
  colors : Colors.t
}.

(** [Platform.OS] *)
Inductive PlatformOS := ios | android | web | windows | macos.

#[global] Instance PlatformOS_eq_dec : EqDecision PlatformOS.
Proof. solve_decision. Defined.

(** ** Surface *)

(** The [elevation] prop of [Surface]: [MD3Elevation | Animated.Value]. *)
Inductive Elevation :=
| Static (level : nat)
| Animated (v : AnimatedValue).

(** Modelled from the spec: [isAnimatedValue] of [src/styles/overlay] (not
    among the sources) tells a live/animated elevation from a static one.
    The components below branch on it by case analysis on [Elevation]. *)
Definition isAnimatedValue (e : Elevation) : bool :=
  match e with Animated _ => true | Static _ => false end.

Inductive Layer := Layer0 | Layer1.

Definition inputRange : list nat := [0; 1; 2; 3; 4; 5].

(** [colors.elevation?.[`level${elevation}`]] *)
Definition levelColor (colors : Colors.t) (level : nat) : JSValue :=
  match Colors.elevation colors with
  | None => VUndefined
  | Some table => prop table ("level" +:+ pretty level)
  end.

(** [array[i]]: out of range reads as [undefined]. *)
Definition index (table : list nat) (i : nat) : JSValue :=
  default VUndefined (num <$> table !! i).

(** The immediately-invoked function that computes [backgroundColor]. *)
Definition backgroundColor (colors : Colors.t) (elevation : Elevation)
  : JSValue :=
  match elevation with
  | Animated v =>
      VInterpolation v (num <$> inputRange) (levelColor colors <$> inputRange)
  | Static level => levelColor colors level
  end.

Definition elevationLevels (layer : Layer) : list nat :=
  match layer with
  | Layer0 => [0; 1; 2; 3; 3; 3]
  | Layer1 => [0; 3; 4; 6; 8; 10]
  end.

Definition getElevationAndroid (elevation : Elevation) (layer : Layer)
  : JSValue :=
  let elevationLevel := elevationLevels layer in
  match elevation with
  | Animated v =>
      VInterpolation v (num <$> inputRange) (num <$> elevationLevel)
  | Static level => index elevationLevel level
  end.

Module ShadowRange.
Record t := {
  shadowOpacity : Q;
  height : list nat;
  shadowRadius : list nat
}.
End ShadowRange.

Definition iOSShadowOutputRanges (layer : Layer) : ShadowRange.t :=
  match layer with
  | Layer0 =>
      {| ShadowRange.shadowOpacity := 0.15%Q;
         ShadowRange.height := [0; 1; 2; 4; 6; 8];
         ShadowRange.shadowRadius := [0; 3; 6; 8; 10; 12] |}
  | Layer1 =>
      {| ShadowRange.shadowOpacity := 0.3%Q;
         ShadowRange.height := [0; 1; 1; 1; 2; 4];
         ShadowRange.shadowRadius := [0; 1; 2; 3; 3; 4] |}
  end.

Definition shadowColor : JSValue := VStr "#000".

Definition getStyleForAnimatedShadowLayer (v : AnimatedValue) (layer : Layer)
  : gmap string JSValue :=
  let r := iOSShadowOutputRanges layer in
  {[ "shadowColor" := shadowColor;
     "shadowOpacity" := VNum (ShadowRange.shadowOpacity r);
     "shadowOffset" :=
       VObj [("width", num 0);
             ("height",
              VInterpolation v (num <$> inputRange)
                (num <$> ShadowRange.height r))];
     "shadowRadius" :=
       VInterpolation v (num <$> inputRange)
         (num <$> ShadowRange.shadowRadius r) ]}.

Definition getStyleForShadowLayer (level : nat) (layer : Layer)
  : gmap string JSValue :=
  let r := iOSShadowOutputRanges layer in
  {[ "shadowColor" := shadowColor;
     "shadowOpacity" := VNum (ShadowRange.shadowOpacity r);
     "shadowOffset" :=
       VObj [("width", num 0);
             ("height", index (ShadowRange.height r) level)];
     "shadowRadius" := index (ShadowRange.shadowRadius r) level ]}.

(** [{ margin: 0, padding: 0 }] *)
Definition clearSpacing : gmap string JSValue :=
  {[ "margin" := num 0; "padding" := num 0 ]}.

Section Surface.
(** Collaborators that are not among the sources: the theme hook of
    [src/core/theming] and the helpers of [src/styles]. *)
Variable useTheme : option Theme -> Theme.
Variable overlay : JSValue -> JSValue -> JSValue.
Variable shadow : JSValue -> StyleProp.
Variable OS : PlatformOS.

(** The elevation the legacy surface works with:
    [const { elevation = 4 } = StyleSheet.flatten(style) || {}]. *)
Definition MD2_elevation (style : StyleProp) : JSValue :=
  prop_default (default ∅ (flatten style)) "elevation" (num 4).

Definition MD2_backgroundColor (theme : Theme) (elevation : JSValue)
  : JSValue :=
  if dark theme && bool_decide (mode theme = Some adaptive)
  then overlay elevation (Colors.surface (colors theme))
  else Colors.surface (colors theme).

Definition MD2Surface (style : StyleProp) (overrideTheme : option Theme)
    (rest : gmap string JSValue) (children : ReactNode) : ReactNode :=
  let elevation := MD2_elevation style in
  let theme := useTheme overrideTheme in
  RElement AnimatedView rest
    (SArr [ SObj {[ "backgroundColor" :=
                      MD2_backgroundColor theme elevation ]};
            if truthy elevation then shadow elevation else SFalsy;
            style ])
    [children].

(** The elevation the current-version surface works with: the prop, or 1
    when the prop is [undefined]. *)
Definition Surface_elevation (elevation : option Elevation) : Elevation :=
  default (Static 1) elevation.

Definition Surface (elevation : option Elevation) (children : ReactNode)
    (overridenTheme : option Theme) (style : StyleProp)
    (props : gmap string JSValue) : Result ReactNode :=
  let elevation := Surface_elevation elevation in
  let theme := useTheme overridenTheme in
  if negb (isV3 theme) then
    Ok (MD2Surface style (Some theme) props children)
  else
    let colors := colors theme in
    let backgroundColor := backgroundColor colors elevation in
    let sharedStyle :=
      SArr [SObj {[ "backgroundColor" := backgroundColor ]}; style] in
    if bool_decide (OS = android) then
      match flatten style with
      | None => Throw TypeError
      | Some flat =>
          let margin := prop flat "margin" in
          let padding := prop flat "padding" in
          let transform := prop flat "transform" in
          let borderRadius := prop flat "borderRadius" in
          let outerLayerStyles : gmap string JSValue :=
            {[ "margin" := margin; "padding" := padding;
               "transform" := transform;
               "borderRadius" := borderRadius ]} in
          Ok (RElement AnimatedView ∅
                (SArr [ SObj {[ "elevation" :=
                                  getElevationAndroid elevation Layer0;
                                "backgroundColor" := backgroundColor ]};
                        SObj outerLayerStyles ])
                [ RElement AnimatedView ∅
                    (SArr [ SObj {[ "elevation" :=
                                      getElevationAndroid elevation Layer1;
                                    "borderRadius" := borderRadius ]};
                            sharedStyle;
                            SObj clearSpacing ])
                    [children] ])
      end
    else
      let layerStyle (layer : Layer) : gmap string JSValue :=
        match elevation with
        | Animated v => getStyleForAnimatedShadowLayer v layer
        | Static level => getStyleForShadowLayer level layer
        end in
      Ok (RElement AnimatedView ∅ (SObj (layerStyle Layer0))
            [ RElement AnimatedView ∅ (SObj (layerStyle Layer1))
                [ RElement AnimatedView props sharedStyle [children] ] ]).

End Surface.

(** ** Appbar *)

Inductive AppbarModes := small | medium | large | center_aligned.

#[global] Instance AppbarModes_eq_dec : EqDecision AppbarModes.
Proof. solve_decision. Defined.

Module RenderArgs.
(** The argument object the Appbar hands to [renderAppbarContent]; a field
    the call leaves out is [None]. *)
Record t := {
  children : ReactNode;
  isDark : bool;
  isV3 : bool;
  shouldCenterContent : option bool;
  renderOnly : option (list ComponentType);
  mode : option AppbarModes
}.
End RenderArgs.

Module styles.
Definition appbar : gmap string JSValue :=
  {[ "flexDirection" := VStr "row";
     "alignItems" := VStr "center";
     "paddingHorizontal" := num 4;
     "elevation" := num 4 ]}.
Definition spacing : gmap string JSValue := {[ "width" := num 48 ]}.
Definition controlsRow : gmap string JSValue :=
  {[ "flex" := num 1;
     "flexDirection" := VStr "row";
     "alignItems" := VStr "center";
     "justifyContent" := VStr "space-between" ]}.
Definition rightActionControls : gmap string JSValue :=
  {[ "flexDirection" := VStr "row";
     "flex" := num 1;
     "justifyContent" := VStr "flex-end" ]}.
Definition columnContainer : gmap string JSValue :=
  {[ "flexDirection" := VStr "column";
     "flex" := num 1;
     "paddingTop" := num 8 ]}.
Definition centerAlignedContainer : gmap string JSValue :=
  {[ "paddingTop" := num 0 ]}.
End styles.

(** [v === s] for a string literal [s]. *)
Definition strict_eq_string (v : JSValue) (s : string) : bool :=
  match v with VStr s' => String.eqb s' s | _ => false end.

(** The counters of the in-order scan of the children. *)
Record Scan := {
  hasAppbarContent : bool;
  leftItemsCount : nat;
  rightItemsCount : nat
}.

(** The callback of [React.Children.forEach]. *)
Definition scan_child (st : Scan) (child : ReactNode) : Scan :=
  match child with
  | RElement type _ _ _ =>
      if bool_decide (type = AppbarContent) then
        {| hasAppbarContent := true;
           leftItemsCount := leftItemsCount st;
           rightItemsCount := rightItemsCount st |}
      else if hasAppbarContent st then
        {| hasAppbarContent := hasAppbarContent st;
           leftItemsCount := leftItemsCount st;
           rightItemsCount := S (rightItemsCount st) |}
      else
        {| hasAppbarContent := hasAppbarContent st;
           leftItemsCount := S (leftItemsCount st);
           rightItemsCount := rightItemsCount st |}
  | _ => st
  end.

Definition scan_children (children : ReactNode) : Scan :=
  fold_left scan_child (Children_nodes children)
    {| hasAppbarContent := false; leftItemsCount := 0; rightItemsCount := 0 |}.

(** The three layout flags; they stay [false] off iOS. *)
Record Centering := {
  shouldCenterContent : bool;
  shouldAddLeftSpacing : bool;
  shouldAddRightSpacing : bool
}.

Definition centering (OS : PlatformOS) (isV3 : bool) (children : ReactNode)
  : Centering :=
  if bool_decide (OS = ios) then
    let st := scan_children children in
    let shouldCenterContent :=
      negb isV3 && hasAppbarContent st
      && (leftItemsCount st <? 2)%nat && (rightItemsCount st <? 2)%nat in
    {| shouldCenterContent := shouldCenterContent;
       shouldAddLeftSpacing :=
         negb isV3 && shouldCenterContent && (leftItemsCount st =? 0)%nat;
       shouldAddRightSpacing :=
         negb isV3 && shouldCenterContent && (rightItemsCount st =? 0)%nat |}
  else
    {| shouldCenterContent := false;
       shouldAddLeftSpacing := false;
       shouldAddRightSpacing := false |}.

(** The callback of [filter] in [filterAppbarActions]: [child.props] is
    [undefined] on text, so reading [isLeading] from it throws. *)
Fixpoint filter_actions (isLeading : bool) (l : list ReactNode)
  : Result (list ReactNode) :=
  match l with
  | [] => Ok []
  | child :: l' =>
      match child with
      | RElement _ props _ _ =>
          let flag := truthy (prop props "isLeading") in
          let keep := if isLeading then flag else negb flag in
          let! kept := filter_actions isLeading l' in
          Ok (if keep then child :: kept else kept)
      | _ => Throw TypeError
      end
  end.

Definition filterAppbarActions (children : ReactNode) (isLeading : bool)
  : Result ReactNode :=
  let! kept := filter_actions isLeading (Children_toArray children) in
  Ok (RArray kept).

Section Appbar.
(** Collaborators that are not among the sources: the helpers and
    constants of [./utils], the [color] package and the platform. *)
Variable getAppbarColor : Theme -> JSValue -> JSValue -> JSValue.
Variable renderAppbarContent : RenderArgs.t -> ReactNode.
Variable DEFAULT_APPBAR_HEIGHT : JSValue.
Variable modeAppbarHeight : AppbarModes -> JSValue.
Variable color_isLight : string -> Result bool.
Variable OS : PlatformOS.

(** The [isDark] flag. *)
Definition Appbar_isDark (dark : option bool) (backgroundColor : JSValue)
  : Result bool :=
  match dark with
  | Some dark => Ok dark
  | None =>
      if strict_eq_string backgroundColor "transparent" then Ok false
      else
        match backgroundColor with
        | VStr s => let! light := color_isLight s in Ok (negb light)
        | _ => Ok true
        end
  end.

Definition isMode (isV3 : bool) (mode modeToCompare : AppbarModes) : bool :=
  isV3 && bool_decide (mode = modeToCompare).

Definition Appbar_elevation (theme : Theme) (style : StyleProp) : JSValue :=
  prop_default (default ∅ (flatten style)) "elevation"
    (if isV3 theme then num 0 else num 4).

Definition Appbar_backgroundColor (theme : Theme) (style : StyleProp)
  : JSValue :=
  getAppbarColor theme (Appbar_elevation theme style)
    (prop (default ∅ (flatten style)) "backgroundColor").

Definition spacer : ReactNode := RElement View ∅ (SObj styles.spacing) [].

(** The two-row layout of the medium, large and center-aligned modes. *)
Definition column (children : ReactNode) (isDark isV3 : bool)
    (mode : AppbarModes) : Result ReactNode :=
  let back :=
    renderAppbarContent
      {| RenderArgs.children := children;
         RenderArgs.isDark := isDark;
         RenderArgs.isV3 := isV3;
         RenderArgs.shouldCenterContent := None;
         RenderArgs.renderOnly := Some [AppbarBackAction];
         RenderArgs.mode := Some mode |} in
  let! leading := filterAppbarActions children true in
  let! trailing := filterAppbarActions children false in
  Ok (RElement View ∅
        (SArr [ SObj styles.columnContainer;
                if isMode isV3 mode center_aligned
                then SObj styles.centerAlignedContainer else SFalsy ])
        [ RElement View ∅ (SObj styles.controlsRow)
            [ back;
              renderAppbarContent
                {| RenderArgs.children := leading;
                   RenderArgs.isDark := isDark;
                   RenderArgs.isV3 := isV3;
                   RenderArgs.shouldCenterContent := None;
                   RenderArgs.renderOnly := Some [AppbarAction];
                   RenderArgs.mode := Some mode |};
              RElement View ∅ (SObj styles.rightActionControls)
                [ renderAppbarContent
                    {| RenderArgs.children := trailing;
                       RenderArgs.isDark := isDark;
                       RenderArgs.isV3 := isV3;
                       RenderArgs.shouldCenterContent := None;
                       RenderArgs.renderOnly := Some [AppbarAction];
                       RenderArgs.mode := Some mode |} ] ];
          renderAppbarContent
            {| RenderArgs.children := children;
               RenderArgs.isDark := isDark;
               RenderArgs.isV3 := isV3;
               RenderArgs.shouldCenterContent :=
                 Some (isMode isV3 mode center_aligned);
               RenderArgs.renderOnly := Some [AppbarContent];
               RenderArgs.mode := Some mode |} ]).

Definition Appbar (children : ReactNode) (dark : option bool)
    (style : StyleProp) (theme : Theme) (mode : option AppbarModes)
    (rest : gmap string JSValue) : Result ReactNode :=
  let mode := default small mode in
  let isV3 := isV3 theme in
  let flat := default ∅ (flatten style) in
  let elevation := Appbar_elevation theme style in
  let restStyle := delete "elevation" (delete "backgroundColor" flat) in
  let backgroundColor := Appbar_backgroundColor theme style in
  let! isDark := Appbar_isDark dark backgroundColor in
  let c := centering OS isV3 children in
  let single_row :=
    if negb isV3 || isMode isV3 mode small then
      renderAppbarContent
        {| RenderArgs.children := children;
           RenderArgs.isDark := isDark;
           RenderArgs.isV3 := isV3;
           RenderArgs.shouldCenterContent := Some (shouldCenterContent c);
           RenderArgs.renderOnly := None;
           RenderArgs.mode := None |}
    else RNull in
  let! two_rows :=
    if isMode isV3 mode medium || isMode isV3 mode large
       || isMode isV3 mode center_aligned
    then column children isDark isV3 mode
    else Ok RNull in
  Ok (RElement SurfaceComponent rest
        (SArr [ SObj {[ "backgroundColor" := backgroundColor ]};
                SObj styles.appbar;
                SObj {[ "height" :=
                          if isV3 then modeAppbarHeight mode
                          else DEFAULT_APPBAR_HEIGHT;
                        "elevation" := elevation ]};
                SObj restStyle ])
        [ if shouldAddLeftSpacing c then spacer else RNull;
          single_row;
          two_rows;
          if shouldAddRightSpacing c then spacer else RNull ]).

End Appbar.

(** ** Concrete collaborators, for running the components on examples *)

Module Samples.
Definition levels : gmap string JSValue :=
  {[ "level0" := VStr "transparent";
     "level1" := VStr "rgb(247, 243, 249)";
     "level2" := VStr "rgb(243, 237, 246)";
     "level3" := VStr "rgb(238, 232, 244)";
     "level4" := VStr "rgb(236, 230, 243)";
     "level5" := VStr "rgb(233, 227, 241)" ]}.

Definition theme_v3 : Theme :=
  {| dark := false; mode := None; isV3 := true;
     colors := {| Colors.surface := VStr "#fffbfe";
                  Colors.elevation := Some levels |} |}.

Definition theme_legacy_dark : Theme :=
  {| dark := true; mode := Some adaptive; isV3 := false;
     colors := {| Colors.surface := VStr "#121212";
                  Colors.elevation := None |} |}.

Definition useTheme (override : option Theme) : Theme :=
  default theme_v3 override.

Definition overlay (elevation surface : JSValue) : JSValue :=
  VArr [VStr "overlay"; elevation; surface].

Definition shadow (elevation : JSValue) : StyleProp :=
  SObj {[ "shadowRadius" := elevation ]}.

Definition getAppbarColor (theme : Theme) (elevation custom : JSValue)
  : JSValue :=
  match custom with
  | VUndefined => Colors.surface (colors theme)
  | _ => custom
  end.

Definition renderAppbarContent (args : RenderArgs.t) : ReactNode :=
  RArray
    (List.filter
       (fun c =>
          match RenderArgs.renderOnly args, c with
          | Some only, RElement type _ _ _ =>
              bool_decide (type ∈ only)
          | Some _, _ => false
          | None, _ => true
          end)
       (Children_toArray (RenderArgs.children args))).

Definition modeAppbarHeight (mode : AppbarModes) : JSValue :=
  match mode with
  | small | center_aligned => num 64
  | medium => num 112
  | large => num 152
  end.

Definition color_isLight (s : string) : Result bool :=
  if String.eqb s "#fffbfe" then Ok true
  else if String.eqb s "#121212" then Ok false
  else Throw ColorError.

Definition content : ReactNode :=
  RElement AppbarContent {[ "title" := VStr "Title" ]} SFalsy [].
Definition back : ReactNode := RElement AppbarBackAction ∅ SFalsy [].
Definition action (icon : string) : ReactNode :=
  RElement AppbarAction {[ "icon" := VStr icon ]} SFalsy [].
Definition leading_action (icon : string) : ReactNode :=
  RElement AppbarAction
    {[ "icon" := VStr icon; "isLeading" := VBool true ]} SFalsy [].
End Samples.

(** ** The Appbar's surface, rendered *)

Section Rendered.
Variable useTheme : option Theme -> Theme.
Variable overlay : JSValue -> JSValue -> JSValue.
Variable shadow : JSValue -> StyleProp.
Variable OS : PlatformOS.

(** The host calling [Surface] on the element the Appbar returns.  The JSX
    of the Appbar gives that element a style, the remaining props and four
    children, and neither an [elevation] nor a [theme] prop, so [Surface]
    runs on its defaults for these two. *)
Definition render_Surface_element (element : ReactNode) : Result ReactNode :=
  match element with
  | RElement SurfaceComponent props style slots =>
      Surface useTheme overlay shadow OS None (RArray slots) None style props
  | _ => Ok element
  end.

End Rendered.

(** ** Vocabulary of the properties *)

(** Field read [o.k] on a nested object value. *)
Definition field (o : JSValue) (k : string) : JSValue :=
  match o with
  | VObj fields =>
      default VUndefined
        (snd <$> List.find (fun p => String.eqb (fst p) k) fields)
  | _ => VUndefined
  end.

(** [animated] is an interpolation of [v] over the knots 0..5 whose output
    at knot [e] is what the static path gives for level [e]. *)
Definition interpolates (v : AnimatedValue) (animated : JSValue)
    (static : nat -> JSValue) : Prop :=
  exists outputRange,
    animated
    = VInterpolation v [num 0; num 1; num 2; num 3; num 4; num 5] outputRange
    /\ length outputRange = 6
    /\ forall e, e <= 5 -> outputRange !! e = Some (static e).

(** The third JSX child slot of the Appbar's surface: where the two-row
    layout goes. *)
Definition column_slot (tree : ReactNode) : option ReactNode :=
  match tree with
  | RElement _ _ _ slots => slots !! 2
  | _ => None
  end.

(** A view styled as the column container, with or without a variant. *)
Definition is_column_container (n : ReactNode) : Prop :=
  exists variant rows,
    n = RElement View ∅ (SArr [SObj styles.columnContainer; variant]) rows.

(** Case analysis on a level bounded by 5. *)
Ltac each_level e :=
  do 6 (destruct e as [|e]; [reflexivity|]); lia.

(** A list of table entries that never decreases with the index. *)
Definition nondecreasing (table : list nat) : Prop :=
  forall a b x y,
    a <= b -> table !! a = Some x -> table !! b = Some y -> x <= y.

(** The children the scan counts as items: elements that are not the
    Content. *)
Definition is_item (child : ReactNode) : bool :=
  match child with
  | RElement type _ _ _ => negb (bool_decide (type = AppbarContent))
  | _ => false
  end.

Definition is_content (child : ReactNode) : bool :=
  match child with
  | RElement type _ _ _ => bool_decide (type = AppbarContent)
  | _ => false
  end.

(** [child.props.isLeading] is truthy. *)
Definition leading_flag (child : ReactNode) : bool :=
  match child with
  | RElement _ props _ _ => truthy (prop props "isLeading")
  | _ => false
  end.

(** Case analysis on two indices of a six-entry table. *)
Ltac table_order a b Ha Hb :=
  do 6 (destruct a as [|a];
        [do 6 (destruct b as [|b];
               [cbn in Ha, Hb; simplify_eq; lia|]);
         discriminate Hb|]);
  discriminate Ha.

(** ** Reading flattened style arrays *)

Lemma prop_union_l (a b : gmap string JSValue) k v :
  a !! k = Some v -> prop (a ∪ b) k = v.
Proof.
  intros Ha. unfold prop. by rewrite (lookup_union_Some_l _ _ _ _ Ha).
Qed.

Lemma prop_union_r (a b : gmap string JSValue) k :
  a !! k = None -> prop (a ∪ b) k = prop b k.
Proof.
  intros Ha. unfold prop. by rewrite lookup_union_r.
Qed.

Lemma prop_empty k : prop ∅ k = VUndefined.
Proof. reflexivity. Qed.

(** A key that an object re-exports from [flat] reads the same whether or
    not [flat] itself is merged over it. *)
Lemma prop_union_same (flat b : gmap string JSValue) k :
  prop b k = prop flat k -> prop (flat ∪ b) k = prop flat k.
Proof.
  intros Hb. destruct (flat !! k) as [v|] eqn:E.
  - rewrite (prop_union_l _ _ _ _ E). unfold prop. by rewrite E.
  - by rewrite prop_union_r.
Qed.

(** ** Surface: the two Android layers *)

(** C1, in the form that holds: in the current design version on Android,
    for every
    style that flattens to an object, Surface renders two nested animated
    views; the outer one reads margin, padding, transform and border radius
    as the flattened style has them, the inner one reads margin 0 and
    padding 0 and the same border radius as the outer one. *)
Theorem Surface_android_layers
    (useTheme : option Theme -> Theme) (overlay : JSValue -> JSValue -> JSValue)
    (shadow : JSValue -> StyleProp) (elevation : option Elevation)
    (children : ReactNode) (th : option Theme) (style : StyleProp)
    (props flat : gmap string JSValue) :
  isV3 (useTheme th) = true ->
  flatten style = Some flat ->
  exists outerStyle innerStyle,
    Surface useTheme overlay shadow android elevation children th style props
    = Ok (RElement AnimatedView ∅ outerStyle
            [RElement AnimatedView ∅ innerStyle [children]])
    /\ style_prop outerStyle "margin" = prop flat "margin"
    /\ style_prop outerStyle "padding" = prop flat "padding"
    /\ style_prop outerStyle "transform" = prop flat "transform"
    /\ style_prop outerStyle "borderRadius" = prop flat "borderRadius"
    /\ style_prop innerStyle "margin" = num 0
    /\ style_prop innerStyle "padding" = num 0
    /\ style_prop innerStyle "borderRadius" = prop flat "borderRadius".
Proof.
  intros HV3 Hflat. unfold Surface. rewrite HV3. cbn [negb].
  rewrite bool_decide_eq_true_2 by reflexivity. rewrite Hflat.
  eexists _, _. split; [reflexivity|].
  unfold style_prop. cbn [flatten fold_left default]. rewrite Hflat.
  unfold id.
  split; [by apply prop_union_l|].
  split; [by apply prop_union_l|].
  split; [by apply prop_union_l|].
  split; [by apply prop_union_l|].
  split; [by apply prop_union_l|].
  split; [by apply prop_union_l|].
  rewrite prop_union_r by reflexivity.
  rewrite <- (assoc_L (∪)).
  apply prop_union_same.
  rewrite prop_union_r by reflexivity.
  by apply prop_union_l.
Qed.

Lemma Surface_android_layers_witness :
  exists outerStyle innerStyle,
    Surface Samples.useTheme Samples.overlay Samples.shadow android
      (Some (Static 2)) (RText "hello") None
      (SArr [SObj {[ "margin" := num 16; "borderRadius" := num 8 ]}])
      ∅
    = Ok (RElement AnimatedView ∅ outerStyle
            [RElement AnimatedView ∅ innerStyle [RText "hello"]])
    /\ style_prop outerStyle "margin" = num 16
    /\ style_prop outerStyle "padding" = VUndefined
    /\ style_prop outerStyle "transform" = VUndefined
    /\ style_prop outerStyle "borderRadius" = num 8
    /\ style_prop innerStyle "margin" = num 0
    /\ style_prop innerStyle "padding" = num 0
    /\ style_prop innerStyle "borderRadius" = num 8.
Proof.
  exact (Surface_android_layers Samples.useTheme Samples.overlay
           Samples.shadow (Some (Static 2)) (RText "hello") None
           (SArr [SObj {[ "margin" := num 16; "borderRadius" := num 8 ]}])
           ∅ {[ "margin" := num 16; "borderRadius" := num 8 ]}
           eq_refl eq_refl).
Defined.

(** C1, what does not hold: the inner Android layer is not cleared of every
    layout field; a border radius and a transform of the style are read on
    the inner view as well, and a style that flattens to [undefined] makes
    the component throw. *)
Lemma Surface_android_inner_not_cleared :
  (exists outerStyle innerStyle,
      Surface Samples.useTheme Samples.overlay Samples.shadow android
        None RNull None
        (SObj {[ "borderRadius" := num 8;
                 "transform" := VArr [VObj [("scale", num 2)]] ]})
        ∅
      = Ok (RElement AnimatedView ∅ outerStyle
              [RElement AnimatedView ∅ innerStyle [RNull]])
      /\ style_prop innerStyle "borderRadius" = num 8
      /\ style_prop innerStyle "borderRadius" <> num 0
      /\ style_prop innerStyle "transform" = VArr [VObj [("scale", num 2)]])
  /\ Surface Samples.useTheme Samples.overlay Samples.shadow android
       None RNull None SFalsy ∅
     = Throw TypeError.
Proof.
  split; [|reflexivity].
  eexists _, _. split; [reflexivity|].
  split; [reflexivity|]. split; [|reflexivity].
  intros H. vm_compute in H. discriminate H.
Qed.

(** ** Surface: background color *)

(** The template string [`level${e}`] on the six levels. *)
Lemma levelKey_values :
  (fun e : nat => "level" +:+ pretty e) <$> inputRange
  = ["level0"; "level1"; "level2"; "level3"; "level4"; "level5"].
Proof. reflexivity. Qed.

Section SurfaceFacts.
Variable useTheme : option Theme -> Theme.
Variable overlay : JSValue -> JSValue -> JSValue.
Variable shadow : JSValue -> StyleProp.

(** What the current-version surface returns off Android, for a static
    level. *)
Lemma Surface_v3_shadow_static OS level children th style props :
  isV3 (useTheme th) = true -> OS <> android ->
  Surface useTheme overlay shadow OS (Some (Static level)) children th
    style props
  = Ok (RElement AnimatedView ∅ (SObj (getStyleForShadowLayer level Layer0))
          [ RElement AnimatedView ∅
              (SObj (getStyleForShadowLayer level Layer1))
              [ RElement AnimatedView props
                  (SArr [ SObj {[ "backgroundColor" :=
                                    levelColor (colors (useTheme th)) level ]};
                          style ])
                  [children] ] ]).
Proof.
  intros HV3 HOS. unfold Surface. rewrite HV3. cbn [negb].
  by rewrite bool_decide_eq_false_2.
Qed.

(** What it returns off Android for an animated elevation. *)
Lemma Surface_v3_shadow_animated OS v children th style props :
  isV3 (useTheme th) = true -> OS <> android ->
  Surface useTheme overlay shadow OS (Some (Animated v)) children th
    style props
  = Ok (RElement AnimatedView ∅
          (SObj (getStyleForAnimatedShadowLayer v Layer0))
          [ RElement AnimatedView ∅
              (SObj (getStyleForAnimatedShadowLayer v Layer1))
              [ RElement AnimatedView props
                  (SArr [ SObj {[ "backgroundColor" :=
                                    backgroundColor (colors (useTheme th))
                                      (Animated v) ]};
                          style ])
                  [children] ] ]).
Proof.
  intros HV3 HOS. unfold Surface. rewrite HV3. cbn [negb].
  by rewrite bool_decide_eq_false_2.
Qed.

(** What it returns on Android, whatever the elevation is. *)
Lemma Surface_v3_android elevation children th style props flat :
  isV3 (useTheme th) = true -> flatten style = Some flat ->
  Surface useTheme overlay shadow android (Some elevation) children th
    style props
  = Ok (RElement AnimatedView ∅
          (SArr [ SObj {[ "elevation" :=
                            getElevationAndroid elevation Layer0;
                          "backgroundColor" :=
                            backgroundColor (colors (useTheme th))
                              elevation ]};
                  SObj {[ "margin" := prop flat "margin";
                          "padding" := prop flat "padding";
                          "transform" := prop flat "transform";
                          "borderRadius" := prop flat "borderRadius" ]} ])
          [ RElement AnimatedView ∅
              (SArr [ SObj {[ "elevation" :=
                                getElevationAndroid elevation Layer1;
                              "borderRadius" := prop flat "borderRadius" ]};
                      SArr [ SObj {[ "backgroundColor" :=
                                       backgroundColor
                                         (colors (useTheme th)) elevation ]};
                             style ];
                      SObj clearSpacing ])
              [children] ]).
Proof.
  intros HV3 Hflat. unfold Surface. rewrite HV3. cbn [negb].
  rewrite bool_decide_eq_true_2 by reflexivity. by rewrite Hflat.
Qed.

(** What the legacy surface returns: the [elevation] prop plays no part,
    the style's own elevation does. *)
Lemma Surface_legacy OS elevation children th style props :
  isV3 (useTheme th) = false ->
  Surface useTheme overlay shadow OS elevation children th style props
  = Ok (RElement AnimatedView props
          (SArr [ SObj {[ "backgroundColor" :=
                            MD2_backgroundColor overlay
                              (useTheme (Some (useTheme th)))
                              (MD2_elevation style) ]};
                  if truthy (MD2_elevation style)
                  then shadow (MD2_elevation style) else SFalsy;
                  style ])
          [children]).
Proof. intros HV3. unfold Surface. by rewrite HV3. Qed.
End SurfaceFacts.

(** C2: for a static elevation [e] in 0..5, the current-version Surface
    (elevation prop [e]) colors its content view with the theme's elevation
    table entry for level [e] (on Android the outer layer too); the legacy
    Surface, which reads its elevation from the style and not from the prop,
    on a style of elevation [e] uses the overlay of the surface color at
    level [e] when the theme is dark and adaptive and the plain surface
    color otherwise, whatever the prop is; and two calls on the same inputs
    give the same color. *)
Theorem Surface_backgroundColor_static
    (useTheme : option Theme -> Theme) (overlay : JSValue -> JSValue -> JSValue)
    (shadow : JSValue -> StyleProp) (OS : PlatformOS) (e : nat)
    (children : ReactNode) (th : option Theme) (style : StyleProp)
    (props : gmap string JSValue) :
  e <= 5 ->
  let theme := useTheme th in
  let legacy := useTheme (Some theme) in
  (isV3 theme = true ->
     (forall table, Colors.elevation (colors theme) = Some table ->
        backgroundColor (colors theme) (Static e)
        = prop table
            (nth e ["level0"; "level1"; "level2"; "level3"; "level4";
                    "level5"] ""))
     /\ (OS <> android ->
         exists layer0 layer1,
           Surface useTheme overlay shadow OS (Some (Static e)) children th
             style props
           = Ok (RElement AnimatedView ∅ layer0
                   [ RElement AnimatedView ∅ layer1
                       [ RElement AnimatedView props
                           (SArr [ SObj {[ "backgroundColor" :=
                                             backgroundColor (colors theme)
                                               (Static e) ]};
                                   style ])
                           [children] ] ]))
     /\ (OS = android -> forall flat, flatten style = Some flat ->
         exists elevation0 outerLayerStyles innerLayer,
           Surface useTheme overlay shadow OS (Some (Static e)) children th
             style props
           = Ok (RElement AnimatedView ∅
                   (SArr [ SObj {[ "elevation" := elevation0;
                                   "backgroundColor" :=
                                     backgroundColor (colors theme)
                                       (Static e) ]};
                           outerLayerStyles ])
                   [ RElement AnimatedView ∅
                       (SArr [ innerLayer;
                               SArr [ SObj {[ "backgroundColor" :=
                                                backgroundColor
                                                  (colors theme) (Static e) ]};
                                      style ];
                               SObj clearSpacing ])
                       [children] ])))
  /\ (isV3 theme = false ->
      style_prop style "elevation" = num e ->
      forall elevationProp,
      exists shadowStyle,
        Surface useTheme overlay shadow OS elevationProp children th style
          props
        = Ok (RElement AnimatedView props
                (SArr [ SObj {[ "backgroundColor" :=
                                  if dark legacy
                                     && bool_decide (mode legacy = Some adaptive)
                                  then overlay (num e)
                                         (Colors.surface (colors legacy))
                                  else Colors.surface (colors legacy) ]};
                        shadowStyle;
                        style ])
                [children]))
  /\ (forall elevationProp first second,
        first = Surface useTheme overlay shadow OS elevationProp children
                  th style props ->
        second = Surface useTheme overlay shadow OS elevationProp children
                   th style props ->
        first = second).
Proof.
  intros He theme legacy. split; [|split].
  - intros HV3. split; [|split].
    + intros table Htable. cbn [backgroundColor]. unfold levelColor.
      rewrite Htable.
      do 6 (destruct e as [|e]; [reflexivity|]). lia.
    + intros HOS. eexists _, _.
      by apply Surface_v3_shadow_static.
    + intros -> flat Hflat. eexists _, _, _.
      by apply Surface_v3_android.
  - intros HV3 Hstyle elevationProp.
    assert (MD2_elevation style = num e) as Hlevel.
    { unfold MD2_elevation, prop_default.
      unfold style_prop in Hstyle. by rewrite Hstyle. }
    rewrite (Surface_legacy _ _ _ _ _ _ _ _ _ HV3), Hlevel.
    by eexists.
  - intros elevationProp first second -> ->. reflexivity.
Qed.

Lemma Surface_backgroundColor_static_witness :
  backgroundColor (colors Samples.theme_v3) (Static 3)
  = VStr "rgb(238, 232, 244)"
  /\ exists shadowStyle,
       Surface Samples.useTheme Samples.overlay Samples.shadow ios
         (Some (Static 5)) RNull (Some Samples.theme_legacy_dark)
         (SObj {[ "elevation" := num 2 ]}) ∅
       = Ok (RElement AnimatedView ∅
               (SArr [ SObj {[ "backgroundColor" :=
                                 VArr [VStr "overlay"; num 2;
                                       VStr "#121212"] ]};
                       shadowStyle;
                       SObj {[ "elevation" := num 2 ]} ])
               [RNull]).
Proof.
  split.
  - exact (proj1 (proj1 (Surface_backgroundColor_static
                    Samples.useTheme Samples.overlay Samples.shadow ios 3
                    RNull None SFalsy ∅ ltac:(lia)) eq_refl)
             Samples.levels eq_refl).
  - exact (proj1 (proj2 (Surface_backgroundColor_static
                    Samples.useTheme Samples.overlay Samples.shadow ios 2
                    RNull (Some Samples.theme_legacy_dark)
                    (SObj {[ "elevation" := num 2 ]}) ∅ ltac:(lia)))
             eq_refl eq_refl (Some (Static 5))).
Defined.

(** ** Surface: animated elevation *)

Lemma interpolates_table v (output : nat -> JSValue) (static : nat -> JSValue) :
  (forall e, e <= 5 -> output e = static e) ->
  interpolates v (VInterpolation v (num <$> inputRange) (output <$> inputRange))
    static.
Proof.
  intros Hagree. exists (output <$> inputRange).
  split; [reflexivity|]. split; [reflexivity|].
  intros e He. rewrite <- (Hagree e He). each_level e.
Qed.

(** C3: with an animated elevation [v], the background color, the two
    Android layer elevations and the two iOS shadow heights and radii are
    interpolations of [v] over the knots 0..5, the output at knot [e] being
    what the static path computes for level [e]; these are the values the
    rendered tree carries on Android and off Android. *)
Theorem Surface_animated_interpolates
    (useTheme : option Theme -> Theme) (overlay : JSValue -> JSValue -> JSValue)
    (shadow : JSValue -> StyleProp) (v : AnimatedValue)
    (children : ReactNode) (th : option Theme) (style : StyleProp)
    (props : gmap string JSValue) :
  isV3 (useTheme th) = true ->
  let palette := colors (useTheme th) in
  interpolates v (backgroundColor palette (Animated v))
    (fun e => backgroundColor palette (Static e))
  /\ (forall layer,
        interpolates v (getElevationAndroid (Animated v) layer)
          (fun e => getElevationAndroid (Static e) layer))
  /\ (forall layer,
        interpolates v
          (field (prop (getStyleForAnimatedShadowLayer v layer) "shadowOffset")
             "height")
          (fun e =>
             field (prop (getStyleForShadowLayer e layer) "shadowOffset")
               "height"))
  /\ (forall layer,
        interpolates v
          (prop (getStyleForAnimatedShadowLayer v layer) "shadowRadius")
          (fun e => prop (getStyleForShadowLayer e layer) "shadowRadius"))
  /\ (forall flat, flatten style = Some flat ->
      exists outerLayerStyles borderRadius,
        Surface useTheme overlay shadow android (Some (Animated v)) children
          th style props
        = Ok (RElement AnimatedView ∅
                (SArr [ SObj {[ "elevation" :=
                                  getElevationAndroid (Animated v) Layer0;
                                "backgroundColor" :=
                                  backgroundColor palette (Animated v) ]};
                        outerLayerStyles ])
                [ RElement AnimatedView ∅
                    (SArr [ SObj {[ "elevation" :=
                                      getElevationAndroid (Animated v) Layer1;
                                    "borderRadius" := borderRadius ]};
                            SArr [ SObj {[ "backgroundColor" :=
                                             backgroundColor palette
                                               (Animated v) ]};
                                   style ];
                            SObj clearSpacing ])
                    [children] ]))
  /\ (forall OS, OS <> android ->
      Surface useTheme overlay shadow OS (Some (Animated v)) children th
        style props
      = Ok (RElement AnimatedView ∅
              (SObj (getStyleForAnimatedShadowLayer v Layer0))
              [ RElement AnimatedView ∅
                  (SObj (getStyleForAnimatedShadowLayer v Layer1))
                  [ RElement AnimatedView props
                      (SArr [ SObj {[ "backgroundColor" :=
                                        backgroundColor palette (Animated v) ]};
                              style ])
                      [children] ] ])).
Proof.
  intros HV3 palette.
  split; [|split; [|split; [|split; [|split]]]].
  - by apply interpolates_table.
  - intros layer.
    destruct layer;
      (eexists; split; [reflexivity|]; split; [reflexivity|];
       intros e He; each_level e).
  - intros layer.
    destruct layer;
      (eexists; split; [reflexivity|]; split; [reflexivity|];
       intros e He; each_level e).
  - intros layer.
    destruct layer;
      (eexists; split; [reflexivity|]; split; [reflexivity|];
       intros e He; each_level e).
  - intros flat Hflat. eexists _, _. by apply Surface_v3_android.
  - intros OS HOS. by apply Surface_v3_shadow_animated.
Qed.

Lemma Surface_animated_interpolates_witness :
  interpolates {| node_id := 7 |}
    (getElevationAndroid (Animated {| node_id := 7 |}) Layer1)
    (fun e => getElevationAndroid (Static e) Layer1)
  /\ interpolates {| node_id := 7 |}
       (backgroundColor (colors Samples.theme_v3)
          (Animated {| node_id := 7 |}))
       (fun e => backgroundColor (colors Samples.theme_v3) (Static e)).
Proof.
  pose proof (Surface_animated_interpolates Samples.useTheme Samples.overlay
                Samples.shadow {| node_id := 7 |} RNull None SFalsy ∅
                eq_refl) as (Hcolor & Hlayers & _).
  split.
  - exact (Hlayers Layer1).
  - exact Hcolor.
Defined.

(** ** Surface: default elevation *)

(** C6: without an [elevation] prop the current-version Surface works at
    level 1 (it renders exactly what it renders for the prop 1); the legacy
    Surface reads the elevation from the flattened style and takes 4 when
    the style has none, whatever the prop is. *)
Theorem Surface_default_elevation
    (useTheme : option Theme -> Theme) (overlay : JSValue -> JSValue -> JSValue)
    (shadow : JSValue -> StyleProp) (OS : PlatformOS)
    (children : ReactNode) (th : option Theme) (style : StyleProp)
    (props : gmap string JSValue) :
  Surface_elevation None = Static 1
  /\ Surface useTheme overlay shadow OS None children th style props
     = Surface useTheme overlay shadow OS (Some (Static 1)) children th style
         props
  /\ (isV3 (useTheme th) = true -> OS <> android ->
      Surface useTheme overlay shadow OS None children th style props
      = Ok (RElement AnimatedView ∅ (SObj (getStyleForShadowLayer 1 Layer0))
              [ RElement AnimatedView ∅
                  (SObj (getStyleForShadowLayer 1 Layer1))
                  [ RElement AnimatedView props
                      (SArr [ SObj {[ "backgroundColor" :=
                                        levelColor (colors (useTheme th)) 1 ]};
                              style ])
                      [children] ] ]))
  /\ (style_prop style "elevation" = VUndefined ->
      MD2_elevation style = num 4
      /\ (isV3 (useTheme th) = false -> forall elevation,
          Surface useTheme overlay shadow OS elevation children th style props
          = Ok (RElement AnimatedView props
                  (SArr [ SObj {[ "backgroundColor" :=
                                    MD2_backgroundColor overlay
                                      (useTheme (Some (useTheme th)))
                                      (num 4) ]};
                          shadow (num 4);
                          style ])
                  [children]))).
Proof.
  split; [reflexivity|]. split; [reflexivity|]. split.
  - intros HV3 HOS.
    change (Surface useTheme overlay shadow OS None children th style props)
      with (Surface useTheme overlay shadow OS (Some (Static 1)) children th
              style props).
    by apply Surface_v3_shadow_static.
  - intros Hnone.
    assert (MD2_elevation style = num 4) as H4.
    { unfold MD2_elevation, prop_default.
      unfold style_prop in Hnone. by rewrite Hnone. }
    split; [exact H4|].
    intros HV3 elevation. rewrite (Surface_legacy _ _ _ _ _ _ _ _ _ HV3).
    by rewrite H4.
Qed.

Lemma Surface_default_elevation_witness :
  MD2_elevation (SObj {[ "padding" := num 8 ]}) = num 4
  /\ Surface Samples.useTheme Samples.overlay Samples.shadow ios None
       (RText "Surface") None (SObj {[ "padding" := num 8 ]}) ∅
     = Ok (RElement AnimatedView ∅ (SObj (getStyleForShadowLayer 1 Layer0))
             [ RElement AnimatedView ∅
                 (SObj (getStyleForShadowLayer 1 Layer1))
                 [ RElement AnimatedView ∅
                     (SArr [ SObj {[ "backgroundColor" :=
                                       VStr "rgb(247, 243, 249)" ]};
                             SObj {[ "padding" := num 8 ]} ])
                     [RText "Surface"] ] ]).
Proof.
  pose proof (Surface_default_elevation Samples.useTheme Samples.overlay
                Samples.shadow ios (RText "Surface") None
                (SObj {[ "padding" := num 8 ]}) ∅)
    as (_ & _ & Hv3 & Hlegacy).
  split.
  - exact (proj1 (Hlegacy eq_refl)).
  - apply Hv3; [reflexivity | discriminate].
Defined.

(** ** Appbar: classification of the children *)

Lemma filter_actions_elements isLeading (l : list ReactNode) :
  Forall (fun c => isValidElement c = true) l ->
  exists kept, filter_actions isLeading l = Ok kept.
Proof.
  induction 1 as [|child l Hchild _ IH]; [by eexists|].
  destruct child as [| |type props style kids|]; try discriminate Hchild.
  destruct IH as [kept Hkept]. cbn [filter_actions]. rewrite Hkept.
  by eexists.
Qed.

Lemma filterAppbarActions_elements children isLeading :
  Forall (fun c => isValidElement c = true) (Children_toArray children) ->
  exists kept, filterAppbarActions children isLeading = Ok (RArray kept).
Proof.
  intros Hall. unfold filterAppbarActions.
  destruct (filter_actions_elements isLeading _ Hall) as [kept ->].
  by eexists.
Qed.

(** In the current design version no centering flag is ever set. *)
Lemma centering_v3 OS children :
  centering OS true children
  = {| shouldCenterContent := false;
       shouldAddLeftSpacing := false;
       shouldAddRightSpacing := false |}.
Proof. unfold centering. by case_bool_decide. Qed.

Section AppbarFacts.
Variable getAppbarColor : Theme -> JSValue -> JSValue -> JSValue.
Variable renderAppbarContent : RenderArgs.t -> ReactNode.
Variable DEFAULT_APPBAR_HEIGHT : JSValue.
Variable modeAppbarHeight : AppbarModes -> JSValue.
Variable color_isLight : string -> Result bool.

#[local] Abbreviation Appbar_on OS :=
  (Appbar getAppbarColor renderAppbarContent DEFAULT_APPBAR_HEIGHT
     modeAppbarHeight color_isLight OS).

(** The style array of the surface the Appbar returns. *)
#[local] Abbreviation surface_style theme style mode :=
  (SArr [ SObj {[ "backgroundColor" :=
                    Appbar_backgroundColor getAppbarColor theme style ]};
          SObj styles.appbar;
          SObj {[ "height" :=
                    if isV3 theme then modeAppbarHeight (default small mode)
                    else DEFAULT_APPBAR_HEIGHT;
                  "elevation" := Appbar_elevation theme style ]};
          SObj (delete "elevation"
                  (delete "backgroundColor" (default ∅ (flatten style)))) ]).

(** The legacy Appbar: one row, for every mode prop. *)
Lemma Appbar_legacy OS children dark style theme mode rest isDark :
  isV3 theme = false ->
  Appbar_isDark color_isLight dark
    (Appbar_backgroundColor getAppbarColor theme style) = Ok isDark ->
  let c := centering OS false children in
  Appbar_on OS children dark style theme mode rest
  = Ok (RElement SurfaceComponent rest (surface_style theme style mode)
          [ if shouldAddLeftSpacing c then spacer else RNull;
            renderAppbarContent
              {| RenderArgs.children := children;
                 RenderArgs.isDark := isDark;
                 RenderArgs.isV3 := false;
                 RenderArgs.shouldCenterContent := Some (shouldCenterContent c);
                 RenderArgs.renderOnly := None;
                 RenderArgs.mode := None |};
            RNull;
            if shouldAddRightSpacing c then spacer else RNull ]).
Proof.
  intros HV3 Hdark c. unfold Appbar. rewrite Hdark, HV3. reflexivity.
Qed.

(** The current-version Appbar in mode small: one row, no spacers. *)
Lemma Appbar_v3_small OS children dark style theme mode rest isDark :
  isV3 theme = true -> default small mode = small ->
  Appbar_isDark color_isLight dark
    (Appbar_backgroundColor getAppbarColor theme style) = Ok isDark ->
  Appbar_on OS children dark style theme mode rest
  = Ok (RElement SurfaceComponent rest (surface_style theme style mode)
          [ RNull;
            renderAppbarContent
              {| RenderArgs.children := children;
                 RenderArgs.isDark := isDark;
                 RenderArgs.isV3 := true;
                 RenderArgs.shouldCenterContent := Some false;
                 RenderArgs.renderOnly := None;
                 RenderArgs.mode := None |};
            RNull;
            RNull ]).
Proof.
  intros HV3 Hmode Hdark. unfold Appbar.
  rewrite Hdark, HV3, Hmode, centering_v3. reflexivity.
Qed.

(** The current-version Appbar in the other modes: the column, or the
    exception of [filterAppbarActions]. *)
Lemma Appbar_v3_two_rows OS children dark style theme mode rest isDark :
  isV3 theme = true -> default small mode <> small ->
  Appbar_isDark color_isLight dark
    (Appbar_backgroundColor getAppbarColor theme style) = Ok isDark ->
  Appbar_on OS children dark style theme mode rest
  = let! two_rows :=
      column renderAppbarContent children isDark true (default small mode) in
    Ok (RElement SurfaceComponent rest (surface_style theme style mode)
          [RNull; RNull; two_rows; RNull]).
Proof.
  intros HV3 Hmode Hdark. unfold Appbar.
  rewrite Hdark, HV3, centering_v3. cbn [bind].
  destruct (default small mode); [done|..]; reflexivity.
Qed.

(** C4: on iOS in the legacy design version, when the children are exactly
    one Content element, the centering flag is true and the rendered surface
    has a spacer element, an empty view of width 48, in its first and in its
    last child slot, around the content rendered as centered. *)
Theorem Appbar_content_only_centered
    children dark style theme mode rest isDark cprops cstyle ckids :
  isV3 theme = false ->
  Children_nodes children = [RElement AppbarContent cprops cstyle ckids] ->
  Appbar_isDark color_isLight dark
    (Appbar_backgroundColor getAppbarColor theme style) = Ok isDark ->
  centering ios (isV3 theme) children
  = {| shouldCenterContent := true;
       shouldAddLeftSpacing := true;
       shouldAddRightSpacing := true |}
  /\ Appbar_on ios children dark style theme mode rest
     = Ok (RElement SurfaceComponent rest (surface_style theme style mode)
             [ RElement View ∅ (SObj {[ "width" := num 48 ]}) [];
               renderAppbarContent
                 {| RenderArgs.children := children;
                    RenderArgs.isDark := isDark;
                    RenderArgs.isV3 := false;
                    RenderArgs.shouldCenterContent := Some true;
                    RenderArgs.renderOnly := None;
                    RenderArgs.mode := None |};
               RNull;
               RElement View ∅ (SObj {[ "width" := num 48 ]}) [] ]).
Proof.
  intros HV3 Hnodes Hdark.
  assert (centering ios false children
          = {| shouldCenterContent := true;
               shouldAddLeftSpacing := true;
               shouldAddRightSpacing := true |}) as Hc.
  { unfold centering, scan_children. rewrite Hnodes. reflexivity. }
  split; [by rewrite HV3|].
  rewrite (Appbar_legacy _ _ _ _ _ _ _ _ HV3 Hdark). cbv zeta.
  by rewrite Hc.
Qed.

(** C5: on iOS in the legacy design version, when the children are exactly
    BackAction, Content, Action, Action, the scan counts one leading and two
    trailing items, and the centering flag is false: of its conditions only
    the bound on the trailing count fails. *)
Theorem Appbar_back_content_two_actions
    children dark style theme mode rest isDark
    p1 s1 k1 p2 s2 k2 p3 s3 k3 p4 s4 k4 :
  isV3 theme = false ->
  Children_nodes children
  = [ RElement AppbarBackAction p1 s1 k1; RElement AppbarContent p2 s2 k2;
      RElement AppbarAction p3 s3 k3; RElement AppbarAction p4 s4 k4 ] ->
  Appbar_isDark color_isLight dark
    (Appbar_backgroundColor getAppbarColor theme style) = Ok isDark ->
  scan_children children
  = {| hasAppbarContent := true; leftItemsCount := 1; rightItemsCount := 2 |}
  /\ (leftItemsCount (scan_children children) <? 2)%nat = true
  /\ (rightItemsCount (scan_children children) <? 2)%nat = false
  /\ shouldCenterContent (centering ios (isV3 theme) children) = false
  /\ Appbar_on ios children dark style theme mode rest
     = Ok (RElement SurfaceComponent rest (surface_style theme style mode)
             [ RNull;
               renderAppbarContent
                 {| RenderArgs.children := children;
                    RenderArgs.isDark := isDark;
                    RenderArgs.isV3 := false;
                    RenderArgs.shouldCenterContent := Some false;
                    RenderArgs.renderOnly := None;
                    RenderArgs.mode := None |};
               RNull;
               RNull ]).
Proof.
  intros HV3 Hnodes Hdark.
  assert (scan_children children
          = {| hasAppbarContent := true; leftItemsCount := 1;
               rightItemsCount := 2 |}) as Hscan.
  { unfold scan_children. rewrite Hnodes. reflexivity. }
  assert (centering ios false children
          = {| shouldCenterContent := false;
               shouldAddLeftSpacing := false;
               shouldAddRightSpacing := false |}) as Hc.
  { unfold centering. rewrite Hscan. reflexivity. }
  split; [exact Hscan|]. rewrite Hscan.
  split; [reflexivity|]. split; [reflexivity|].
  split; [by rewrite HV3, Hc|].
  rewrite (Appbar_legacy _ _ _ _ _ _ _ _ HV3 Hdark). cbv zeta.
  by rewrite Hc.
Qed.

(** ** Appbar: the isDark flag *)

(** The Appbar depends on [dark] and on the color parser only through the
    flag they resolve to. *)
Lemma Appbar_isDark_only OS children style theme mode rest
    (isLight1 isLight2 : string -> Result bool) (dark1 dark2 : option bool) :
  Appbar_isDark isLight1 dark1
    (Appbar_backgroundColor getAppbarColor theme style)
  = Appbar_isDark isLight2 dark2
      (Appbar_backgroundColor getAppbarColor theme style) ->
  Appbar getAppbarColor renderAppbarContent DEFAULT_APPBAR_HEIGHT
    modeAppbarHeight isLight1 OS children dark1 style theme mode rest
  = Appbar getAppbarColor renderAppbarContent DEFAULT_APPBAR_HEIGHT
      modeAppbarHeight isLight2 OS children dark2 style theme mode rest.
Proof. intros Hsame. unfold Appbar. by rewrite Hsame. Qed.

(** C7: with [dark] undefined and the derived background color equal to the
    string "transparent", isDark is false and the Appbar renders as with
    [dark = false]; with an explicit boolean [dark], isDark is that boolean
    and the rendering does not depend on the color parser. *)
Theorem Appbar_isDark_transparent_or_explicit
    OS children style theme mode rest :
  (Appbar_backgroundColor getAppbarColor theme style = VStr "transparent" ->
   Appbar_isDark color_isLight None
     (Appbar_backgroundColor getAppbarColor theme style) = Ok false
   /\ Appbar_on OS children None style theme mode rest
      = Appbar_on OS children (Some false) style theme mode rest)
  /\ (forall (b : bool) (backgroundColor : JSValue)
        (other_isLight : string -> Result bool),
        Appbar_isDark other_isLight (Some b) backgroundColor = Ok b
        /\ Appbar getAppbarColor renderAppbarContent DEFAULT_APPBAR_HEIGHT
             modeAppbarHeight other_isLight OS children (Some b) style theme
             mode rest
           = Appbar_on OS children (Some b) style theme mode rest).
Proof.
  split.
  - intros Htransparent. split.
    + by rewrite Htransparent.
    + apply Appbar_isDark_only. by rewrite Htransparent.
  - intros b backgroundColor other_isLight. split; [reflexivity|].
    by apply Appbar_isDark_only.
Qed.

(** C10: with [dark] undefined and a derived background color that is not a
    string (so not "transparent" either), isDark is true whatever the color
    parser and the theme are, and the Appbar renders as with [dark = true]. *)
Theorem Appbar_isDark_non_string
    OS children style theme mode rest (backgroundColor : JSValue) :
  is_string backgroundColor = false ->
  Appbar_isDark color_isLight None backgroundColor = Ok true
  /\ (Appbar_backgroundColor getAppbarColor theme style = backgroundColor ->
      Appbar_on OS children None style theme mode rest
      = Appbar_on OS children (Some true) style theme mode rest).
Proof.
  intros Hnot.
  assert (Appbar_isDark color_isLight None backgroundColor = Ok true) as H.
  { by destruct backgroundColor. }
  split; [exact H|].
  intros Hbg. apply Appbar_isDark_only. by rewrite Hbg, H.
Qed.

(** ** Appbar: modes *)

(** C8: in the current design version with mode center-aligned (and
    children that are all elements), the third child slot of the surface is
    a view styled [columnContainer, centerAlignedContainer] that holds the
    controls row and then the content row, rendered as centered; that style
    flattens to paddingTop 0, where the column container alone has 8. *)
Theorem Appbar_center_aligned_container
    OS children dark style theme rest isDark :
  isV3 theme = true ->
  Forall (fun c => isValidElement c = true) (Children_toArray children) ->
  Appbar_isDark color_isLight dark
    (Appbar_backgroundColor getAppbarColor theme style) = Ok isDark ->
  (exists controlsRow,
      Appbar_on OS children dark style theme (Some center_aligned) rest
      = Ok (RElement SurfaceComponent rest
              (surface_style theme style (Some center_aligned))
              [ RNull;
                RNull;
                RElement View ∅
                  (SArr [ SObj styles.columnContainer;
                          SObj styles.centerAlignedContainer ])
                  [ controlsRow;
                    renderAppbarContent
                      {| RenderArgs.children := children;
                         RenderArgs.isDark := isDark;
                         RenderArgs.isV3 := true;
                         RenderArgs.shouldCenterContent := Some true;
                         RenderArgs.renderOnly := Some [AppbarContent];
                         RenderArgs.mode := Some center_aligned |} ];
                RNull ]))
  /\ style_prop (SArr [ SObj styles.columnContainer;
                        SObj styles.centerAlignedContainer ]) "paddingTop"
     = num 0
  /\ style_prop (SArr [SObj styles.columnContainer; SFalsy]) "paddingTop"
     = num 8.
Proof.
  intros HV3 Hall Hdark. split; [|split; reflexivity].
  rewrite (Appbar_v3_two_rows OS children dark style theme
             (Some center_aligned) rest isDark HV3
             ltac:(cbn; discriminate) Hdark).
  unfold column.
  destruct (filterAppbarActions_elements children true Hall) as [l ->].
  destruct (filterAppbarActions_elements children false Hall) as [t ->].
  eexists. reflexivity.
Qed.

(** C9: in the legacy design version (whatever the mode prop) and in mode
    small, the Appbar renders with an empty third child slot, so without the
    column; and whenever the Appbar renders, its third slot holds the column
    container exactly when the current design version is active and the mode
    is medium, large or center-aligned. *)
Theorem Appbar_column_only_in_two_row_modes
    OS children dark style theme mode rest :
  (forall isDark,
      Appbar_isDark color_isLight dark
        (Appbar_backgroundColor getAppbarColor theme style) = Ok isDark ->
      isV3 theme = false \/ default small mode = small ->
      exists tree,
        Appbar_on OS children dark style theme mode rest = Ok tree
        /\ column_slot tree = Some RNull)
  /\ (forall tree,
        Appbar_on OS children dark style theme mode rest = Ok tree ->
        (exists c, column_slot tree = Some c /\ is_column_container c)
        <-> (isV3 theme = true
             /\ (default small mode = medium \/ default small mode = large
                 \/ default small mode = center_aligned))).
Proof.
  split.
  - intros isDark Hdark Hcase.
    destruct (isV3 theme) eqn:HV3.
    + destruct Hcase as [|Hsmall]; [done|].
      rewrite (Appbar_v3_small _ _ _ _ _ _ _ _ HV3 Hsmall Hdark).
      by eexists.
    + rewrite (Appbar_legacy _ _ _ _ _ _ _ _ HV3 Hdark). by eexists.
  - intros tree Htree.
    destruct (Appbar_isDark color_isLight dark
                (Appbar_backgroundColor getAppbarColor theme style))
      as [isDark|e] eqn:Hdark;
      [|unfold Appbar in Htree; rewrite Hdark in Htree; discriminate Htree].
    destruct (isV3 theme) eqn:HV3.
    + destruct (decide (default small mode = small)) as [Hsmall|Hother].
      * rewrite (Appbar_v3_small _ _ _ _ _ _ _ _ HV3 Hsmall Hdark) in Htree.
        injection Htree as <-. cbn [column_slot lookup list_lookup].
        split.
        -- intros (c & [= <-] & variant & rows & [=]).
        -- rewrite Hsmall. intros (_ & [|[|]]); discriminate.
      * rewrite (Appbar_v3_two_rows _ _ _ _ _ _ _ _ HV3 Hother Hdark)
          in Htree.
        unfold column in Htree.
        destruct (filterAppbarActions children true); [|discriminate Htree].
        destruct (filterAppbarActions children false); [|discriminate Htree].
        injection Htree as <-. split.
        -- intros _. split; [reflexivity|].
           destruct (default small mode); [done|auto..].
        -- intros _. eexists. split; [reflexivity|]. by eexists _, _.
    + rewrite (Appbar_legacy _ _ _ _ _ _ _ _ HV3 Hdark) in Htree.
      injection Htree as <-. cbn [column_slot lookup list_lookup].
      split.
      * intros (c & [= <-] & variant & rows & [=]).
      * intros ([=] & _).
Qed.

End AppbarFacts.

(** ** The Appbar on the sample collaborators *)

Lemma Appbar_content_only_centered_witness :
  exists surfaceStyle content,
    Appbar Samples.getAppbarColor Samples.renderAppbarContent (num 56)
      Samples.modeAppbarHeight Samples.color_isLight ios
      Samples.content None SFalsy Samples.theme_legacy_dark None ∅
    = Ok (RElement SurfaceComponent ∅ surfaceStyle
            [ RElement View ∅ (SObj {[ "width" := num 48 ]}) [];
              content;
              RNull;
              RElement View ∅ (SObj {[ "width" := num 48 ]}) [] ]).
Proof.
  eexists _, _.
  exact (proj2 (Appbar_content_only_centered
                  Samples.getAppbarColor Samples.renderAppbarContent (num 56)
                  Samples.modeAppbarHeight Samples.color_isLight
                  Samples.content None SFalsy Samples.theme_legacy_dark None
                  ∅ true {[ "title" := VStr "Title" ]} SFalsy []
                  eq_refl eq_refl eq_refl)).
Defined.

Lemma Appbar_back_content_two_actions_witness :
  scan_children
    (RArray [ Samples.back; Samples.content; Samples.action "magnify";
              Samples.action "dots-vertical" ])
  = {| hasAppbarContent := true; leftItemsCount := 1; rightItemsCount := 2 |}
  /\ shouldCenterContent
       (centering ios (isV3 Samples.theme_legacy_dark)
          (RArray [ Samples.back; Samples.content; Samples.action "magnify";
                    Samples.action "dots-vertical" ]))
     = false.
Proof.
  pose proof (Appbar_back_content_two_actions
                Samples.getAppbarColor Samples.renderAppbarContent (num 56)
                Samples.modeAppbarHeight Samples.color_isLight
                (RArray [ Samples.back; Samples.content;
                          Samples.action "magnify";
                          Samples.action "dots-vertical" ])
                None SFalsy Samples.theme_legacy_dark None ∅ true
                _ _ _ _ _ _ _ _ _ _ _ _ eq_refl eq_refl eq_refl)
    as (Hscan & _ & _ & Hcenter & _).
  split; [exact Hscan | exact Hcenter].
Defined.

Lemma Appbar_isDark_transparent_or_explicit_witness :
  Appbar_isDark Samples.color_isLight None (VStr "transparent") = Ok false
  /\ Appbar_isDark Samples.color_isLight (Some true) (VStr "#fffbfe")
     = Ok true.
Proof.
  pose proof (Appbar_isDark_transparent_or_explicit
                Samples.getAppbarColor Samples.renderAppbarContent (num 56)
                Samples.modeAppbarHeight Samples.color_isLight ios
                Samples.content
                (SObj {[ "backgroundColor" := VStr "transparent" ]})
                Samples.theme_v3 None ∅)
    as [Htransparent Hexplicit].
  split.
  - exact (proj1 (Htransparent eq_refl)).
  - exact (proj1 (Hexplicit true (VStr "#fffbfe") Samples.color_isLight)).
Defined.

Lemma Appbar_isDark_non_string_witness :
  Appbar_isDark Samples.color_isLight None
    (VInterpolation {| node_id := 1 |} [num 0; num 1]
       [VStr "#fffbfe"; VStr "#121212"])
  = Ok true.
Proof.
  exact (proj1 (Appbar_isDark_non_string
                  Samples.getAppbarColor Samples.renderAppbarContent (num 56)
                  Samples.modeAppbarHeight Samples.color_isLight ios
                  Samples.content SFalsy Samples.theme_v3 None ∅
                  (VInterpolation {| node_id := 1 |} [num 0; num 1]
                     [VStr "#fffbfe"; VStr "#121212"])
                  eq_refl)).
Defined.

Lemma Appbar_center_aligned_container_witness :
  exists surfaceStyle controlsRow contentRow,
    Appbar Samples.getAppbarColor Samples.renderAppbarContent (num 56)
      Samples.modeAppbarHeight Samples.color_isLight android
      (RArray [ Samples.back; Samples.content; Samples.action "magnify" ])
      None SFalsy Samples.theme_v3 (Some center_aligned) ∅
    = Ok (RElement SurfaceComponent ∅ surfaceStyle
            [ RNull;
              RNull;
              RElement View ∅
                (SArr [ SObj styles.columnContainer;
                        SObj styles.centerAlignedContainer ])
                [controlsRow; contentRow];
              RNull ]).
Proof.
  destruct (Appbar_center_aligned_container
              Samples.getAppbarColor Samples.renderAppbarContent (num 56)
              Samples.modeAppbarHeight Samples.color_isLight android
              (RArray [ Samples.back; Samples.content;
                        Samples.action "magnify" ])
              None SFalsy Samples.theme_v3 ∅ false
              eq_refl ltac:(repeat constructor) eq_refl)
    as [[controlsRow Htree] _].
  eexists _, controlsRow, _. exact Htree.
Defined.

Lemma Appbar_column_only_in_two_row_modes_witness :
  exists tree,
    Appbar Samples.getAppbarColor Samples.renderAppbarContent (num 56)
      Samples.modeAppbarHeight Samples.color_isLight ios
      (RArray [ Samples.back; Samples.content ])
      None SFalsy Samples.theme_legacy_dark (Some large) ∅
    = Ok tree
    /\ column_slot tree = Some RNull.
Proof.
  exact (proj1 (Appbar_column_only_in_two_row_modes
                  Samples.getAppbarColor Samples.renderAppbarContent (num 56)
                  Samples.modeAppbarHeight Samples.color_isLight ios
                  (RArray [ Samples.back; Samples.content ])
                  None SFalsy Samples.theme_legacy_dark (Some large) ∅)
           true eq_refl (or_introl eq_refl)).
Defined.

(** ** Runs on concrete inputs *)

(** Nested arrays of children are walked in order; text and empty nodes are
    not counted. *)
Example centering_nested_children :
  centering ios false
    (RArray [ Samples.content;
              RArray [Samples.action "magnify"; RNull; RText "x"] ])
  = {| shouldCenterContent := true;
       shouldAddLeftSpacing := true;
       shouldAddRightSpacing := false |}.
Proof. reflexivity. Qed.

(** Off iOS nothing is centered. *)
Example centering_android :
  centering android false Samples.content
  = {| shouldCenterContent := false;
       shouldAddLeftSpacing := false;
       shouldAddRightSpacing := false |}.
Proof. reflexivity. Qed.

(** A text child makes the two-row modes throw, and only them. *)
Example Appbar_text_child_medium :
  Appbar Samples.getAppbarColor Samples.renderAppbarContent (num 56)
    Samples.modeAppbarHeight Samples.color_isLight ios
    (RArray [Samples.content; RText "x"]) None SFalsy Samples.theme_v3
    (Some medium) ∅
  = Throw TypeError.
Proof. reflexivity. Qed.

Example Appbar_text_child_small :
  column_slot
    (match Appbar Samples.getAppbarColor Samples.renderAppbarContent (num 56)
             Samples.modeAppbarHeight Samples.color_isLight ios
             (RArray [Samples.content; RText "x"]) None SFalsy
             Samples.theme_v3 (Some small) ∅
     with Ok tree => tree | Throw _ => RText "threw" end)
  = Some RNull.
Proof. reflexivity. Qed.

(** The leading flag, not the position, sorts the actions of the two-row
    modes. *)
Example filterAppbarActions_leading :
  filterAppbarActions
    (RArray [ Samples.back; Samples.content; Samples.leading_action "menu";
              Samples.action "magnify"; RNull ]) true
  = Ok (RArray [Samples.leading_action "menu"]).
Proof. reflexivity. Qed.

(** The static lookups at level 4. *)
Example static_level_4 :
  getElevationAndroid (Static 4) Layer0 = num 3
  /\ getElevationAndroid (Static 4) Layer1 = num 8
  /\ prop (getStyleForShadowLayer 4 Layer0) "shadowRadius" = num 10
  /\ field (prop (getStyleForShadowLayer 4 Layer1) "shadowOffset") "height"
     = num 2
  /\ backgroundColor (colors Samples.theme_v3) (Static 4)
     = VStr "rgb(236, 230, 243)".
Proof. repeat split. Qed.

(** A level outside the tables reads as [undefined]. *)
Example static_level_6 :
  getElevationAndroid (Static 6) Layer0 = VUndefined
  /\ backgroundColor (colors Samples.theme_v3) (Static 6) = VUndefined.
Proof. split; reflexivity. Qed.

(** A background color of the style wins over the computed one once the
    host flattens the content view's style. *)
Example Surface_style_color_wins :
  style_prop
    (SArr [ SObj {[ "backgroundColor" :=
                      backgroundColor (colors Samples.theme_v3) (Static 2) ]};
            SObj {[ "backgroundColor" := VStr "red" ]} ])
    "backgroundColor"
  = VStr "red".
Proof. reflexivity. Qed.

(** ** Surface: when it throws, and what reaches which view *)

Lemma flatten_None style : flatten style = None <-> style = SFalsy.
Proof. destruct style; split; intros H; done. Qed.

(** X1: Surface throws only in the current design version on Android on a
    falsy style, and then it is a TypeError; in every other case it returns
    a tree. *)
Theorem Surface_throws_iff
    (useTheme : option Theme -> Theme) (overlay : JSValue -> JSValue -> JSValue)
    (shadow : JSValue -> StyleProp) (OS : PlatformOS)
    (elevation : option Elevation) (children : ReactNode)
    (th : option Theme) (style : StyleProp) (props : gmap string JSValue)
    (e : Exn) :
  Surface useTheme overlay shadow OS elevation children th style props
  = Throw e
  <-> isV3 (useTheme th) = true /\ OS = android /\ style = SFalsy
      /\ e = TypeError.
Proof.
  unfold Surface. destruct (isV3 (useTheme th)); cbn [negb].
  - case_bool_decide as HOS.
    + destruct (flatten style) as [flat|] eqn:Hflat.
      * split; [discriminate|].
        intros (_ & _ & -> & _). discriminate Hflat.
      * apply flatten_None in Hflat. split.
        -- by intros [= <-].
        -- by intros (_ & _ & _ & ->).
    + split; [discriminate|]. by intros (_ & ? & _).
  - split; [discriminate|]. by intros (? & _).
Qed.

(** X2: a static level outside 0..5 reads as [undefined] in every table
    lookup, on both platforms, and a level inside never does. *)
Theorem static_level_out_of_range (level : nat) (layer : Layer) :
  (getElevationAndroid (Static level) layer = VUndefined <-> 5 < level)
  /\ (prop (getStyleForShadowLayer level layer) "shadowRadius" = VUndefined
      <-> 5 < level)
  /\ (field (prop (getStyleForShadowLayer level layer) "shadowOffset")
        "height" = VUndefined
      <-> 5 < level).
Proof.
  destruct layer;
    (do 6 (destruct level as [|level];
           [repeat split; solve [discriminate | lia]|]);
     repeat split; solve [reflexivity | lia]).
Qed.

(** X3: on every layer the Android elevations, the iOS shadow heights and
    the iOS shadow radii never decrease when the level grows, and the outer
    Android layer is never above the inner one. *)
Theorem elevation_tables_monotone (layer : Layer) :
  nondecreasing (elevationLevels layer)
  /\ nondecreasing (ShadowRange.height (iOSShadowOutputRanges layer))
  /\ nondecreasing (ShadowRange.shadowRadius (iOSShadowOutputRanges layer))
  /\ (forall level outer inner,
        elevationLevels Layer0 !! level = Some outer ->
        elevationLevels Layer1 !! level = Some inner ->
        outer <= inner).
Proof.
  split; [|split; [|split]].
  - intros a b x y Hab Ha Hb. destruct layer; table_order a b Ha Hb.
  - intros a b x y Hab Ha Hb. destruct layer; table_order a b Ha Hb.
  - intros a b x y Hab Ha Hb. destruct layer; table_order a b Ha Hb.
  - intros level outer inner Ha Hb.
    do 6 (destruct level as [|level]; [cbn in Ha, Hb; simplify_eq; lia|]).
    discriminate Ha.
Qed.

(** What the host reads on the two Android layers for the keys the layers
    and the style may both define. *)
Lemma android_layers_read (color elevation0 elevation1 : JSValue)
    (outerLayerStyles : gmap string JSValue) (borderRadius : JSValue)
    (style : StyleProp) (flat : gmap string JSValue) :
  flatten style = Some flat ->
  outerLayerStyles !! "backgroundColor" = None ->
  outerLayerStyles !! "elevation" = None ->
  let outerStyle :=
    SArr [ SObj {[ "elevation" := elevation0; "backgroundColor" := color ]};
           SObj outerLayerStyles ] in
  let innerStyle :=
    SArr [ SObj {[ "elevation" := elevation1;
                   "borderRadius" := borderRadius ]};
           SArr [SObj {[ "backgroundColor" := color ]}; style];
           SObj clearSpacing ] in
  style_prop outerStyle "backgroundColor" = color
  /\ style_prop outerStyle "elevation" = elevation0
  /\ style_prop innerStyle "backgroundColor"
     = match flat !! "backgroundColor" with Some v => v | None => color end
  /\ style_prop innerStyle "elevation"
     = match flat !! "elevation" with Some v => v | None => elevation1 end.
Proof.
  intros Hflat Hbg Hel outerStyle innerStyle.
  unfold style_prop, outerStyle, innerStyle.
  cbn [flatten fold_left default]. rewrite Hflat. unfold id.
  split; [|split; [|split]].
  - rewrite prop_union_r by exact Hbg. by apply prop_union_l.
  - rewrite prop_union_r by exact Hel. by apply prop_union_l.
  - rewrite prop_union_r by reflexivity.
    rewrite <- (assoc_L (∪)).
    destruct (flat !! "backgroundColor") as [v|] eqn:E.
    + by apply prop_union_l.
    + rewrite prop_union_r by exact E. by apply prop_union_l.
  - rewrite prop_union_r by reflexivity.
    rewrite <- (assoc_L (∪)).
    destruct (flat !! "elevation") as [v|] eqn:E.
    + by apply prop_union_l.
    + rewrite prop_union_r by exact E.
      rewrite prop_union_r by reflexivity. by apply prop_union_l.
Qed.

(** X4: on Android in the current design version the outer view always has
    the computed background color and the outer-layer elevation, whatever
    the style says; on the inner view a backgroundColor or elevation key of
    the style wins, and the computed color and the inner-layer elevation are
    used only when the style has no such key. *)
Theorem Surface_android_style_overrides
    (useTheme : option Theme -> Theme) (overlay : JSValue -> JSValue -> JSValue)
    (shadow : JSValue -> StyleProp) (elevation : Elevation)
    (children : ReactNode) (th : option Theme) (style : StyleProp)
    (props flat : gmap string JSValue) :
  isV3 (useTheme th) = true ->
  flatten style = Some flat ->
  exists outerStyle innerStyle,
    Surface useTheme overlay shadow android (Some elevation) children th
      style props
    = Ok (RElement AnimatedView ∅ outerStyle
            [RElement AnimatedView ∅ innerStyle [children]])
    /\ style_prop outerStyle "backgroundColor"
       = backgroundColor (colors (useTheme th)) elevation
    /\ style_prop outerStyle "elevation"
       = getElevationAndroid elevation Layer0
    /\ style_prop innerStyle "backgroundColor"
       = match flat !! "backgroundColor" with
         | Some v => v
         | None => backgroundColor (colors (useTheme th)) elevation
         end
    /\ style_prop innerStyle "elevation"
       = match flat !! "elevation" with
         | Some v => v
         | None => getElevationAndroid elevation Layer1
         end.
Proof.
  intros HV3 Hflat.
  rewrite (Surface_v3_android _ _ _ _ _ _ _ _ _ HV3 Hflat).
  eexists _, _. split; [reflexivity|].
  by apply android_layers_read.
Qed.

Lemma Surface_android_style_overrides_witness :
  exists outerStyle innerStyle,
    Surface Samples.useTheme Samples.overlay Samples.shadow android
      (Some (Static 2)) RNull None
      (SObj {[ "backgroundColor" := VStr "red"; "elevation" := num 4 ]}) ∅
    = Ok (RElement AnimatedView ∅ outerStyle
            [RElement AnimatedView ∅ innerStyle [RNull]])
    /\ style_prop outerStyle "backgroundColor" = VStr "rgb(243, 237, 246)"
    /\ style_prop outerStyle "elevation" = num 2
    /\ style_prop innerStyle "backgroundColor" = VStr "red"
    /\ style_prop innerStyle "elevation" = num 4.
Proof.
  exact (Surface_android_style_overrides Samples.useTheme Samples.overlay
           Samples.shadow (Static 2) RNull None
           (SObj {[ "backgroundColor" := VStr "red"; "elevation" := num 4 ]})
           ∅ {[ "backgroundColor" := VStr "red"; "elevation" := num 4 ]}
           eq_refl eq_refl).
Defined.

(** What the host reads on the content view, styled
    [[{ backgroundColor }, style]]. *)
Lemma shared_style_reads (color : JSValue) (style : StyleProp) :
  let sharedStyle := SArr [SObj {[ "backgroundColor" := color ]}; style] in
  (forall k, k <> "backgroundColor" ->
     style_prop sharedStyle k = style_prop style k)
  /\ style_prop sharedStyle "backgroundColor"
     = match default ∅ (flatten style) !! "backgroundColor" with
       | Some v => v
       | None => color
       end.
Proof.
  intros sharedStyle. unfold style_prop, sharedStyle.
  cbn [flatten fold_left default].
  destruct (flatten style) as [flat|]; cbn [default]; unfold id; split.
  - intros k Hk. unfold prop.
    rewrite lookup_union, lookup_union, lookup_empty.
    rewrite lookup_singleton_ne by done.
    by destruct (flat !! k).
  - destruct (flat !! "backgroundColor") as [v|] eqn:E.
    + by apply prop_union_l.
    + rewrite prop_union_r by exact E. by apply prop_union_l.
  - intros k Hk. unfold prop.
    rewrite lookup_union, lookup_empty.
    by rewrite lookup_singleton_ne by done.
  - reflexivity.
Qed.

(** X5: off Android in the current design version the two shadow wrappers
    carry the four shadow keys and nothing of the style; the content view
    reads every key as the style has it, the computed background color
    standing in only when the style has no backgroundColor key. *)
Theorem Surface_shadow_content_style
    (useTheme : option Theme -> Theme) (overlay : JSValue -> JSValue -> JSValue)
    (shadow : JSValue -> StyleProp) (OS : PlatformOS) (elevation : Elevation)
    (children : ReactNode) (th : option Theme) (style : StyleProp)
    (props : gmap string JSValue) :
  isV3 (useTheme th) = true -> OS <> android ->
  exists layer0 layer1 contentStyle,
    Surface useTheme overlay shadow OS (Some elevation) children th style
      props
    = Ok (RElement AnimatedView ∅ (SObj layer0)
            [ RElement AnimatedView ∅ (SObj layer1)
                [ RElement AnimatedView props contentStyle [children] ] ])
    /\ dom layer0
       = {[ "shadowColor"; "shadowOpacity"; "shadowOffset"; "shadowRadius" ]}
    /\ dom layer1
       = {[ "shadowColor"; "shadowOpacity"; "shadowOffset"; "shadowRadius" ]}
    /\ (forall k, k <> "backgroundColor" ->
          style_prop contentStyle k = style_prop style k)
    /\ style_prop contentStyle "backgroundColor"
       = match default ∅ (flatten style) !! "backgroundColor" with
         | Some v => v
         | None => backgroundColor (colors (useTheme th)) elevation
         end.
Proof.
  intros HV3 HOS.
  destruct elevation as [level|v].
  - rewrite (Surface_v3_shadow_static _ _ _ _ _ _ _ _ _ HV3 HOS).
    eexists _, _, _. split; [reflexivity|].
    split; [reflexivity|]. split; [reflexivity|].
    apply shared_style_reads.
  - rewrite (Surface_v3_shadow_animated _ _ _ _ _ _ _ _ _ HV3 HOS).
    eexists _, _, _. split; [reflexivity|].
    split; [reflexivity|]. split; [reflexivity|].
    apply shared_style_reads.
Qed.

Lemma Surface_shadow_content_style_witness :
  exists layer0 layer1 contentStyle,
    Surface Samples.useTheme Samples.overlay Samples.shadow ios
      (Some (Static 3)) RNull None
      (SObj {[ "margin" := num 16; "backgroundColor" := VStr "red" ]})
      {[ "testID" := VStr "card" ]}
    = Ok (RElement AnimatedView ∅ (SObj layer0)
            [ RElement AnimatedView ∅ (SObj layer1)
                [ RElement AnimatedView {[ "testID" := VStr "card" ]}
                    contentStyle [RNull] ] ])
    /\ dom layer0
       = {[ "shadowColor"; "shadowOpacity"; "shadowOffset"; "shadowRadius" ]}
    /\ style_prop contentStyle "margin" = num 16
    /\ style_prop contentStyle "backgroundColor" = VStr "red".
Proof.
  destruct (Surface_shadow_content_style Samples.useTheme Samples.overlay
              Samples.shadow ios (Static 3) RNull None
              (SObj {[ "margin" := num 16; "backgroundColor" := VStr "red" ]})
              {[ "testID" := VStr "card" ]} eq_refl ltac:(discriminate))
    as (layer0 & layer1 & contentStyle & Htree & Hdom & _ & Hkeys & Hcolor).
  exists layer0, layer1, contentStyle.
  split; [exact Htree|]. split; [exact Hdom|]. split.
  - rewrite Hkeys by discriminate. reflexivity.
  - exact Hcolor.
Defined.

(** X6: in the current design version the Android path drops the remaining
    props (the rendered tree is the same for any two prop bags), while off
    Android and in the legacy version the props are forwarded, so different
    prop bags give different trees. *)
Theorem Surface_props_forwarding
    (useTheme : option Theme -> Theme) (overlay : JSValue -> JSValue -> JSValue)
    (shadow : JSValue -> StyleProp) (OS : PlatformOS)
    (elevation : option Elevation) (children : ReactNode)
    (th : option Theme) (style : StyleProp)
    (props props' : gmap string JSValue) :
  (isV3 (useTheme th) = true /\ OS = android ->
   Surface useTheme overlay shadow OS elevation children th style props
   = Surface useTheme overlay shadow OS elevation children th style props')
  /\ (isV3 (useTheme th) = false \/ OS <> android ->
      Surface useTheme overlay shadow OS elevation children th style props
      = Surface useTheme overlay shadow OS elevation children th style props'
      -> props = props').
Proof.
  split.
  - intros [HV3 ->]. unfold Surface. rewrite HV3. cbn [negb].
    by rewrite bool_decide_eq_true_2 by reflexivity.
  - intros Hcase. unfold Surface.
    destruct (isV3 (useTheme th)); cbn [negb].
    + destruct Hcase as [|HOS]; [done|].
      rewrite bool_decide_eq_false_2 by exact HOS. by intros [=].
    + unfold MD2Surface. by intros [=].
Qed.

Lemma Surface_props_forwarding_witness :
  Surface Samples.useTheme Samples.overlay Samples.shadow android None RNull
    None (SObj ∅) {[ "testID" := VStr "card" ]}
  = Surface Samples.useTheme Samples.overlay Samples.shadow android None RNull
      None (SObj ∅) ∅.
Proof.
  exact (proj1 (Surface_props_forwarding Samples.useTheme Samples.overlay
                  Samples.shadow android None RNull None (SObj ∅)
                  {[ "testID" := VStr "card" ]} ∅)
           (conj eq_refl eq_refl)).
Defined.

(** X7: in the legacy design version the [elevation] prop has no effect at
    all, and the shadow entry of the style array is [null] exactly when the
    elevation read from the style (4 when it has none) is falsy, as for
    [elevation: 0]; the style's own keys come last and win over both the
    computed background color and the shadow. *)
Theorem Surface_legacy_shadow
    (useTheme : option Theme -> Theme) (overlay : JSValue -> JSValue -> JSValue)
    (shadow : JSValue -> StyleProp) (OS : PlatformOS)
    (elevation : option Elevation) (children : ReactNode)
    (th : option Theme) (style : StyleProp) (props : gmap string JSValue) :
  isV3 (useTheme th) = false ->
  (forall elevation',
      Surface useTheme overlay shadow OS elevation children th style props
      = Surface useTheme overlay shadow OS elevation' children th style props)
  /\ exists color shadowStyle,
       Surface useTheme overlay shadow OS elevation children th style props
       = Ok (RElement AnimatedView props
               (SArr [SObj {[ "backgroundColor" := color ]}; shadowStyle;
                      style])
               [children])
       /\ (shadowStyle = SFalsy <->
           truthy (MD2_elevation style) = false
           \/ shadow (MD2_elevation style) = SFalsy)
       /\ (style_prop style "elevation" = num 0 -> shadowStyle = SFalsy)
       /\ (style_prop style "elevation" = VUndefined ->
           shadowStyle = shadow (num 4))
       /\ (forall k v, default ∅ (flatten style) !! k = Some v ->
             style_prop
               (SArr [SObj {[ "backgroundColor" := color ]}; shadowStyle;
                      style]) k
             = v).
Proof.
  intros HV3. split.
  - intros elevation'. by rewrite !(Surface_legacy _ _ _ _ _ _ _ _ _ HV3).
  - rewrite (Surface_legacy _ _ _ _ _ _ _ _ _ HV3).
    eexists _, _. split; [reflexivity|].
    split; [|split; [|split]].
    + destruct (truthy (MD2_elevation style)); split; auto.
      intros [|]; done.
    + intros H0. unfold MD2_elevation, prop_default.
      unfold style_prop in H0. by rewrite H0.
    + intros Hnone. unfold MD2_elevation, prop_default.
      unfold style_prop in Hnone. by rewrite Hnone.
    + intros k v Hk. unfold style_prop. cbn [flatten fold_left].
      destruct (flatten style) as [flat|]; [|done].
      cbn [default] in *. unfold id. by apply prop_union_l.
Qed.

Lemma Surface_legacy_shadow_witness :
  exists color,
    Surface Samples.useTheme Samples.overlay Samples.shadow ios
      (Some (Static 5)) RNull (Some Samples.theme_legacy_dark)
      (SObj {[ "elevation" := num 0 ]}) ∅
    = Ok (RElement AnimatedView ∅
            (SArr [SObj {[ "backgroundColor" := color ]}; SFalsy;
                   SObj {[ "elevation" := num 0 ]}])
            [RNull]).
Proof.
  destruct (Surface_legacy_shadow Samples.useTheme Samples.overlay
              Samples.shadow ios (Some (Static 5)) RNull
              (Some Samples.theme_legacy_dark)
              (SObj {[ "elevation" := num 0 ]}) ∅ eq_refl)
    as (_ & color & shadowStyle & Htree & _ & Hzero & _).
  exists color. rewrite Htree. by rewrite (Hzero eq_refl).
Defined.

(** ** Appbar: what the scan counts *)

Lemma scan_after_content (l : list ReactNode) (st : Scan) :
  hasAppbarContent st = true ->
  fold_left scan_child l st
  = {| hasAppbarContent := true;
       leftItemsCount := leftItemsCount st;
       rightItemsCount :=
         rightItemsCount st + length (List.filter is_item l) |}.
Proof.
  revert st. induction l as [|child l IH]; intros st Hst.
  - destruct st as [has left right]. cbn in *. subst has.
    f_equal. lia.
  - cbn [fold_left]. rewrite IH.
    + destruct child as [| |type props style kids|]; cbn;
        try (f_equal; lia).
      case_bool_decide; cbn; [f_equal; lia|].
      rewrite Hst. cbn. f_equal. lia.
    + destruct child as [| |type props style kids|]; cbn; try done.
      case_bool_decide; [done|]. by rewrite Hst.
Qed.

Lemma scan_before_content (l : list ReactNode) (st : Scan) :
  hasAppbarContent st = false ->
  existsb is_content l = false ->
  fold_left scan_child l st
  = {| hasAppbarContent := false;
       leftItemsCount := leftItemsCount st + length (List.filter is_item l);
       rightItemsCount := rightItemsCount st |}.
Proof.
  revert st. induction l as [|child l IH]; intros st Hst Hnone.
  - destruct st as [has left right]. cbn in *. subst has.
    f_equal. lia.
  - cbn [existsb] in Hnone. apply orb_false_iff in Hnone as [Hchild Hl].
    cbn [fold_left]. rewrite IH; [| |exact Hl].
    + destruct child as [| |type props style kids|]; cbn;
        try (f_equal; lia).
      cbn in Hchild. rewrite Hchild, Hst. cbn. f_equal. lia.
    + destruct child as [| |type props style kids|]; cbn; try done.
      cbn in Hchild. by rewrite Hchild, Hst.
Qed.

(** X8: the scan sets [hasAppbarContent] exactly when some child is a
    Content element; the elements before the first Content are the leading
    items, the elements after it that are not a Content are the trailing
    items, and text and empty children are never counted; without a Content
    every element is a leading item. *)
Theorem scan_children_counts (children : ReactNode) :
  let nodes := Children_nodes children in
  let st := scan_children children in
  hasAppbarContent st = existsb is_content nodes
  /\ leftItemsCount st + rightItemsCount st
     = length (List.filter is_item nodes)
  /\ (forall before content after,
        nodes = (before ++ content :: after)%list ->
        is_content content = true ->
        existsb is_content before = false ->
        leftItemsCount st = length (List.filter is_item before)
        /\ rightItemsCount st = length (List.filter is_item after))
  /\ (existsb is_content nodes = false ->
      leftItemsCount st = length (List.filter is_item nodes)
      /\ rightItemsCount st = 0).
Proof.
  intros nodes st.
  assert (forall before content after,
             nodes = (before ++ content :: after)%list ->
             is_content content = true ->
             existsb is_content before = false ->
             st = {| hasAppbarContent := true;
                     leftItemsCount := length (List.filter is_item before);
                     rightItemsCount :=
                       length (List.filter is_item after) |}) as Hsplit.
  { intros before content after Hnodes Hcontent Hbefore.
    unfold st, scan_children. fold nodes. rewrite Hnodes.
    rewrite fold_left_app. rewrite (scan_before_content before) by done.
    cbn [fold_left]. rewrite scan_after_content.
    - destruct content as [| |type props style kids|]; try discriminate.
      cbn in Hcontent. cbn. by rewrite Hcontent.
    - destruct content as [| |type props style kids|]; try discriminate.
      cbn in Hcontent. cbn. by rewrite Hcontent. }
  assert (existsb is_content nodes = false ->
          st = {| hasAppbarContent := false;
                  leftItemsCount := length (List.filter is_item nodes);
                  rightItemsCount := 0 |}) as Hnone.
  { intros Hno. unfold st, scan_children. fold nodes.
    by rewrite scan_before_content. }
  assert (existsb is_content nodes = true ->
          exists before content after,
            nodes = (before ++ content :: after)%list
            /\ is_content content = true
            /\ existsb is_content before = false) as Hfirst.
  { clear. induction nodes as [|c l IH]; [discriminate|].
    intros Hex. destruct (is_content c) eqn:Hc.
    - by exists [], c, l.
    - cbn in Hex. rewrite Hc in Hex.
      destruct (IH Hex) as (before & content & after & -> & ? & ?).
      exists (c :: before), content, after. cbn. by rewrite Hc. }
  destruct (existsb is_content nodes) eqn:Hex.
  - destruct (Hfirst eq_refl) as (before & content & after & Hn & Hc & Hb).
    rewrite (Hsplit _ _ _ Hn Hc Hb). cbn.
    split; [reflexivity|]. split.
    + rewrite Hn, List.filter_app, length_app. cbn [List.filter].
      assert (is_item content = false) as ->; [|done].
      destruct content as [| |type props style kids|]; try done.
      cbn in *. by rewrite Hc.
    + split; [|discriminate].
      intros before' content' after' Hn' Hc' Hb'.
      rewrite (Hsplit _ _ _ Hn' Hc' Hb') in Hsplit.
      specialize (Hsplit _ _ _ Hn Hc Hb). by injection Hsplit as -> ->.
  - rewrite (Hnone eq_refl). cbn.
    split; [reflexivity|]. split; [lia|]. split; [|done].
    intros before content after Hn Hc _.
    rewrite Hn, existsb_app in Hex. cbn in Hex. rewrite Hc in Hex.
    by rewrite orb_true_r in Hex.
Qed.

(** ** Appbar: leading and trailing actions of the two-row modes *)

Lemma filter_actions_spec (isLeading : bool) (l : list ReactNode) :
  filter_actions isLeading l
  = if forallb isValidElement l
    then Ok (List.filter
               (fun c =>
                  if isLeading then leading_flag c
                  else negb (leading_flag c)) l)
    else Throw TypeError.
Proof.
  induction l as [|child l IH]; [reflexivity|].
  destruct child as [| |type props style kids|]; try reflexivity.
  cbn [filter_actions forallb isValidElement andb List.filter leading_flag].
  rewrite IH. by destruct (forallb isValidElement l).
Qed.

Lemma filter_complement_Permutation {A} (f : A -> bool) (l : list A) :
  Permutation (List.filter f l ++ List.filter (fun x => negb (f x)) l) l.
Proof.
  induction l as [|x l IH]; [constructor|].
  cbn [List.filter]. destruct (f x); cbn [negb].
  - cbn. by constructor.
  - rewrite <- Permutation_middle. by constructor.
Qed.

Lemma filter_sublist {A} (f : A -> bool) (l : list A) :
  sublist (List.filter f l) l.
Proof.
  induction l as [|x l IH]; [constructor|].
  cbn [List.filter]. destruct (f x); by constructor.
Qed.

(** X10: when [filterAppbarActions] returns for both flags, the leading and
    the trailing actions split the children of [React.Children.toArray]:
    each list keeps the order of the children, together they hold every
    child exactly once, and a child is leading exactly when its [isLeading]
    prop is truthy. *)
Theorem filterAppbarActions_partition
    (children leading trailing : ReactNode) :
  filterAppbarActions children true = Ok leading ->
  filterAppbarActions children false = Ok trailing ->
  exists l t,
    leading = RArray l /\ trailing = RArray t
    /\ Permutation (l ++ t) (Children_toArray children)
    /\ sublist l (Children_toArray children)
    /\ sublist t (Children_toArray children)
    /\ length l + length t = length (Children_toArray children)
    /\ Forall (fun c => leading_flag c = true) l
    /\ Forall (fun c => leading_flag c = false) t.
Proof.
  unfold filterAppbarActions. rewrite !filter_actions_spec.
  destruct (forallb isValidElement (Children_toArray children));
    [|discriminate].
  cbn [bind]. intros [= <-] [= <-]. eexists _, _.
  split; [reflexivity|]. split; [reflexivity|].
  split; [apply filter_complement_Permutation|].
  split; [apply filter_sublist|]. split; [apply filter_sublist|].
  split.
  - rewrite <- length_app.
    apply Permutation_length, filter_complement_Permutation.
  - split; apply List.Forall_forall; intros c Hc;
      apply List.filter_In in Hc as [_ Hc]; [done|].
    by apply negb_true_iff.
Qed.

Lemma filterAppbarActions_partition_witness :
  exists l t,
    RArray [Samples.leading_action "menu"] = RArray l
    /\ RArray [Samples.back; Samples.content; Samples.action "magnify"]
       = RArray t
    /\ Permutation (l ++ t)
         (Children_toArray
            (RArray [ Samples.back; Samples.leading_action "menu";
                      Samples.content; RNull; Samples.action "magnify" ]))
    /\ sublist l
         (Children_toArray
            (RArray [ Samples.back; Samples.leading_action "menu";
                      Samples.content; RNull; Samples.action "magnify" ]))
    /\ sublist t
         (Children_toArray
            (RArray [ Samples.back; Samples.leading_action "menu";
                      Samples.content; RNull; Samples.action "magnify" ]))
    /\ length l + length t
       = length
           (Children_toArray
              (RArray [ Samples.back; Samples.leading_action "menu";
                        Samples.content; RNull; Samples.action "magnify" ]))
    /\ Forall (fun c => leading_flag c = true) l
    /\ Forall (fun c => leading_flag c = false) t.
Proof.
  exact (filterAppbarActions_partition
           (RArray [ Samples.back; Samples.leading_action "menu";
                     Samples.content; RNull; Samples.action "magnify" ])
           (RArray [Samples.leading_action "menu"])
           (RArray [Samples.back; Samples.content; Samples.action "magnify"])
           eq_refl eq_refl).
Defined.

(** X11: [filterAppbarActions] throws exactly when some child of
    [React.Children.toArray] is not an element (a text child), it is then a
    TypeError, and it does so for both values of the flag alike. *)
Theorem filterAppbarActions_throws_iff
    (children : ReactNode) (isLeading : bool) (e : Exn) :
  (filterAppbarActions children isLeading = Throw e
   <-> e = TypeError
       /\ forallb isValidElement (Children_toArray children) = false)
  /\ (filterAppbarActions children isLeading = Throw e
      <-> filterAppbarActions children (negb isLeading) = Throw e).
Proof.
  unfold filterAppbarActions. rewrite !filter_actions_spec.
  destruct (forallb isValidElement (Children_toArray children)); cbn [bind].
  - split; split; try discriminate. by intros [_ ?].
  - split; split; try done.
    + by intros [= <-].
    + by intros [-> _].
Qed.

(** ** Appbar: slots, exceptions and the style of its surface *)

Section AppbarSlots.
Variable getAppbarColor : Theme -> JSValue -> JSValue -> JSValue.
Variable renderAppbarContent : RenderArgs.t -> ReactNode.
Variable DEFAULT_APPBAR_HEIGHT : JSValue.
Variable modeAppbarHeight : AppbarModes -> JSValue.
Variable color_isLight : string -> Result bool.

#[local] Abbreviation Appbar_at OS :=
  (Appbar getAppbarColor renderAppbarContent DEFAULT_APPBAR_HEIGHT
     modeAppbarHeight color_isLight OS).

#[local] Abbreviation Appbar_style theme style mode :=
  (SArr [ SObj {[ "backgroundColor" :=
                    Appbar_backgroundColor getAppbarColor theme style ]};
          SObj styles.appbar;
          SObj {[ "height" :=
                    if isV3 theme then modeAppbarHeight (default small mode)
                    else DEFAULT_APPBAR_HEIGHT;
                  "elevation" := Appbar_elevation theme style ]};
          SObj (delete "elevation"
                  (delete "backgroundColor" (default ∅ (flatten style)))) ]).

(** Every tree the Appbar returns is a Surface element with the remaining
    props, the same style array and four child slots, the outer two being
    the spacers the centering flags ask for. *)
Lemma Appbar_returns OS children dark style theme mode rest tree :
  Appbar_at OS children dark style theme mode rest = Ok tree ->
  exists single_row two_rows,
    tree
    = RElement SurfaceComponent rest (Appbar_style theme style mode)
        [ if shouldAddLeftSpacing (centering OS (isV3 theme) children)
          then spacer else RNull;
          single_row;
          two_rows;
          if shouldAddRightSpacing (centering OS (isV3 theme) children)
          then spacer else RNull ].
Proof.
  unfold Appbar.
  destruct (Appbar_isDark _ _ _) as [isDark|]; [|discriminate].
  cbn [bind].
  match goal with
  | |- context [bind ?c _] => destruct c as [two_rows|]; [|discriminate]
  end.
  cbn [bind]. intros [= <-]. by eexists _, _.
Qed.

Lemma column_throws children isDark isV3 mode e :
  column renderAppbarContent children isDark isV3 mode = Throw e
  <-> e = TypeError
      /\ forallb isValidElement (Children_toArray children) = false.
Proof.
  unfold column, filterAppbarActions. rewrite !filter_actions_spec.
  destruct (forallb isValidElement (Children_toArray children)); cbn [bind].
  - split; [discriminate|]. by intros [_ ?].
  - split; [by intros [= <-]|]. by intros [-> _].
Qed.

(** X9: in every tree the Appbar returns, the first child slot holds the
    left spacer exactly when the platform is iOS, the design version is the
    legacy one, a Content child exists, there is no leading item and at most
    one trailing item, and is empty otherwise; likewise the last slot and
    the right spacer with the two counts exchanged. *)
Theorem Appbar_spacer_slots
    OS children dark style theme mode rest tree :
  Appbar_at OS children dark style theme mode rest = Ok tree ->
  let st := scan_children children in
  exists surfaceStyle left single_row two_rows right,
    tree = RElement SurfaceComponent rest surfaceStyle
             [left; single_row; two_rows; right]
    /\ (left = spacer \/ left = RNull)
    /\ (right = spacer \/ right = RNull)
    /\ (left = spacer
        <-> OS = ios /\ isV3 theme = false /\ hasAppbarContent st = true
            /\ leftItemsCount st = 0 /\ rightItemsCount st < 2)
    /\ (right = spacer
        <-> OS = ios /\ isV3 theme = false /\ hasAppbarContent st = true
            /\ rightItemsCount st = 0 /\ leftItemsCount st < 2).
Proof.
  intros Htree st.
  destruct (Appbar_returns _ _ _ _ _ _ _ _ Htree)
    as (single_row & two_rows & ->).
  eexists _, _, _, _, _. split; [reflexivity|].
  unfold centering. fold st.
  destruct (decide (OS = ios)) as [->|HOS].
  - rewrite bool_decide_eq_true_2 by reflexivity.
    cbn [shouldAddLeftSpacing shouldAddRightSpacing].
    destruct (isV3 theme), (hasAppbarContent st),
      (leftItemsCount st) as [|[|left]], (rightItemsCount st) as [|[|right]];
      cbn; (split; [auto|]); (split; [auto|]);
      split; split; intuition (lia || discriminate || reflexivity).
  - rewrite bool_decide_eq_false_2 by exact HOS.
    cbn [shouldAddLeftSpacing shouldAddRightSpacing].
    split; [auto|]. split; [auto|].
    split; split; (discriminate || by intros (? & _)).
Qed.

(** X12: the Appbar throws in two cases only: the color parser throws while
    the isDark flag is resolved, or, with the flag resolved, the design
    version is the current one, the mode is not small and some child is not
    an element, which is a TypeError.  In the legacy version and in mode
    small a text child is harmless. *)
Theorem Appbar_throws_iff
    OS children dark style theme mode rest e :
  Appbar_at OS children dark style theme mode rest = Throw e
  <-> Appbar_isDark color_isLight dark
        (Appbar_backgroundColor getAppbarColor theme style) = Throw e
      \/ ((exists isDark,
              Appbar_isDark color_isLight dark
                (Appbar_backgroundColor getAppbarColor theme style)
              = Ok isDark)
          /\ isV3 theme = true /\ default small mode <> small
          /\ e = TypeError
          /\ forallb isValidElement (Children_toArray children) = false).
Proof.
  destruct (Appbar_isDark color_isLight dark
              (Appbar_backgroundColor getAppbarColor theme style))
    as [isDark|e'] eqn:Hdark.
  - destruct (isV3 theme) eqn:HV3.
    + destruct (decide (default small mode = small)) as [Hsmall|Hother].
      * rewrite (Appbar_v3_small _ _ _ _ _ _ _ _ _ _ _ _ _ HV3 Hsmall Hdark).
        split; [discriminate|].
        intros [|(_ & _ & ? & _)]; done.
      * rewrite (Appbar_v3_two_rows _ _ _ _ _ _ _ _ _ _ _ _ _ HV3 Hother
                   Hdark).
        destruct (column renderAppbarContent children isDark true
                    (default small mode)) as [two_rows|e''] eqn:Hcolumn;
          cbn [bind].
        -- split; [discriminate|].
           intros [|(_ & _ & _ & He & Hall)]; [done|].
           assert (column renderAppbarContent children isDark true
                     (default small mode) = Throw e) as Hthrow
             by by apply column_throws.
           rewrite Hcolumn in Hthrow. discriminate Hthrow.
        -- apply column_throws in Hcolumn as [-> Hall]. split.
           ++ intros [= <-]. right. eauto 10.
           ++ intros [|(_ & _ & _ & -> & _)]; done.
    + rewrite (Appbar_legacy _ _ _ _ _ _ _ _ _ _ _ _ _ HV3 Hdark).
      split; [discriminate|].
      intros [|(_ & ? & _)]; done.
  - unfold Appbar. rewrite Hdark. cbn [bind]. split.
    + intros [= <-]. by left.
    + intros [[= <-]|([isDark ?] & _)]; done.
Qed.

(** X13: resolving the isDark flag throws only when [dark] is undefined and
    the background color is a string other than "transparent" that the color
    parser rejects; when the parser accepts it, the flag is the negation of
    the parser's isLight. *)
Theorem Appbar_isDark_parser
    (dark : option bool) (backgroundColor : JSValue) (e : Exn) :
  (Appbar_isDark color_isLight dark backgroundColor = Throw e
   <-> dark = None
       /\ exists s, backgroundColor = VStr s /\ s <> "transparent"
                    /\ color_isLight s = Throw e)
  /\ (forall s light,
        backgroundColor = VStr s -> s <> "transparent" ->
        color_isLight s = Ok light ->
        Appbar_isDark color_isLight None backgroundColor = Ok (negb light)).
Proof.
  split.
  - destruct dark as [b|]; cbn [Appbar_isDark].
    { split; [discriminate|]. by intros [? _]. }
    destruct backgroundColor as [|b|q|s|v|v i o|fs|items];
      cbn [strict_eq_string];
      try (split; [discriminate|]; by intros (_ & s' & ? & _)).
    destruct (String.eqb s "transparent") eqn:Heq.
    + apply String.eqb_eq in Heq as ->.
      split; [discriminate|]. by intros (_ & s' & [= <-] & ? & _).
    + apply String.eqb_neq in Heq.
      destruct (color_isLight s) as [light|e'] eqn:Hparse; cbn [bind].
      * split; [discriminate|].
        intros (_ & s' & [= <-] & _ & Hthrow).
        rewrite Hparse in Hthrow. discriminate Hthrow.
      * split.
        -- intros [= <-]. split; [reflexivity|]. by exists s.
        -- intros (_ & s' & [= <-] & _ & Hthrow).
           rewrite Hparse in Hthrow. by injection Hthrow as ->.
  - intros s light -> Hs Hparse. cbn [Appbar_isDark strict_eq_string].
    apply String.eqb_neq in Hs. by rewrite Hs, Hparse.
Qed.

(** X14: the style array of the surface the Appbar returns flattens to the
    Appbar's own background color and elevation (never [undefined]),
    whatever the caller's style holds under those two keys; every other key
    of the caller's style wins over the Appbar's defaults, the height
    included, and the defaults stand where the style has no such key. *)
Theorem Appbar_surface_style
    OS children dark style theme mode rest tree :
  Appbar_at OS children dark style theme mode rest = Ok tree ->
  exists surfaceStyle slots,
    tree = RElement SurfaceComponent rest surfaceStyle slots
    /\ style_prop surfaceStyle "backgroundColor"
       = Appbar_backgroundColor getAppbarColor theme style
    /\ style_prop surfaceStyle "elevation" = Appbar_elevation theme style
    /\ Appbar_elevation theme style <> VUndefined
    /\ (forall k v,
          k <> "backgroundColor" -> k <> "elevation" ->
          default ∅ (flatten style) !! k = Some v ->
          style_prop surfaceStyle k = v)
    /\ (default ∅ (flatten style) !! "height" = None ->
        style_prop surfaceStyle "height"
        = if isV3 theme then modeAppbarHeight (default small mode)
          else DEFAULT_APPBAR_HEIGHT)
    /\ (default ∅ (flatten style) !! "paddingHorizontal" = None ->
        style_prop surfaceStyle "paddingHorizontal" = num 4).
Proof.
  intros Htree.
  destruct (Appbar_returns _ _ _ _ _ _ _ _ Htree)
    as (single_row & two_rows & ->).
  eexists _, _. split; [reflexivity|].
  unfold style_prop. cbn [flatten fold_left default]. unfold id.
  set (flat := match flatten style with Some o => o | None => ∅ end).
  split; [|split; [|split; [|split; [|split]]]].
  - rewrite prop_union_r
      by (by rewrite lookup_delete_ne, lookup_delete_eq by done).
    rewrite prop_union_r by reflexivity.
    rewrite prop_union_r by reflexivity.
    by apply prop_union_l.
  - rewrite prop_union_r by apply lookup_delete_eq.
    by apply prop_union_l.
  - unfold Appbar_elevation, prop_default.
    destruct (prop _ "elevation"), (isV3 theme); discriminate.
  - intros k v Hbg Hel Hk. apply prop_union_l.
    by rewrite !lookup_delete_ne by done.
  - intros Hnone.
    rewrite prop_union_r by (by rewrite !lookup_delete_ne by done).
    by apply prop_union_l.
  - intros Hnone.
    rewrite prop_union_r by (by rewrite !lookup_delete_ne by done).
    rewrite prop_union_r by reflexivity.
    by apply prop_union_l.
Qed.

End AppbarSlots.

Lemma Appbar_spacer_slots_witness :
  exists surfaceStyle single_row two_rows,
    Appbar Samples.getAppbarColor Samples.renderAppbarContent (num 56)
      Samples.modeAppbarHeight Samples.color_isLight ios
      (RArray [Samples.back; Samples.content]) None SFalsy
      Samples.theme_legacy_dark None ∅
    = Ok (RElement SurfaceComponent ∅ surfaceStyle
            [RNull; single_row; two_rows; spacer]).
Proof.
  eexists _, _, _.
  destruct (Appbar_spacer_slots
              Samples.getAppbarColor Samples.renderAppbarContent (num 56)
              Samples.modeAppbarHeight Samples.color_isLight ios
              (RArray [Samples.back; Samples.content]) None SFalsy
              Samples.theme_legacy_dark None ∅ _ eq_refl)
    as (surfaceStyle & left & single_row & two_rows & right & Htree & _).
  injection Htree as <- <- <- <- <-. reflexivity.
Defined.

Lemma Appbar_isDark_parser_witness :
  Appbar_isDark Samples.color_isLight None (VStr "#121212") = Ok true.
Proof.
  exact (proj2 (Appbar_isDark_parser Samples.color_isLight None
                  (VStr "#121212") TypeError)
           "#121212" false eq_refl ltac:(discriminate) eq_refl).
Defined.

Lemma Appbar_surface_style_witness :
  exists surfaceStyle slots,
    Appbar Samples.getAppbarColor Samples.renderAppbarContent (num 56)
      Samples.modeAppbarHeight Samples.color_isLight android
      Samples.content (Some true)
      (SObj {[ "backgroundColor" := VStr "red"; "height" := num 80 ]})
      Samples.theme_v3 (Some medium) ∅
    = Ok (RElement SurfaceComponent ∅ surfaceStyle slots)
    /\ style_prop surfaceStyle "backgroundColor" = VStr "red"
    /\ style_prop surfaceStyle "elevation" = num 0
    /\ style_prop surfaceStyle "height" = num 80.
Proof.
  destruct (Appbar_surface_style
              Samples.getAppbarColor Samples.renderAppbarContent (num 56)
              Samples.modeAppbarHeight Samples.color_isLight android
              Samples.content (Some true)
              (SObj {[ "backgroundColor" := VStr "red"; "height" := num 80 ]})
              Samples.theme_v3 (Some medium) ∅ _ eq_refl)
    as (surfaceStyle & slots & Htree & Hcolor & Helevation & _ & Hkeys & _).
  exists surfaceStyle, slots. split; [by rewrite <- Htree|].
  split; [exact Hcolor|]. split; [exact Helevation|].
  by apply Hkeys.
Defined.

(** ** The Appbar's surface, rendered by Surface *)

Section AppbarRendered.
Variable useTheme : option Theme -> Theme.
Variable overlay : JSValue -> JSValue -> JSValue.
Variable shadow : JSValue -> StyleProp.
Variable getAppbarColor : Theme -> JSValue -> JSValue -> JSValue.
Variable renderAppbarContent : RenderArgs.t -> ReactNode.
Variable DEFAULT_APPBAR_HEIGHT : JSValue.
Variable modeAppbarHeight : AppbarModes -> JSValue.
Variable color_isLight : string -> Result bool.

#[local] Abbreviation Appbar_in OS :=
  (Appbar getAppbarColor renderAppbarContent DEFAULT_APPBAR_HEIGHT
     modeAppbarHeight color_isLight OS).

#[local] Abbreviation rendered OS :=
  (render_Surface_element useTheme overlay shadow OS).

Lemma Appbar_elevation_defined theme style :
  Appbar_elevation theme style <> VUndefined.
Proof.
  unfold Appbar_elevation, prop_default.
  destruct (prop _ "elevation"), (isV3 theme); discriminate.
Qed.

(** The style array of the Appbar's surface always flattens to an object,
    which holds the Appbar's color and elevation. *)
Lemma Appbar_returns_flat OS children dark style theme mode rest tree :
  Appbar_in OS children dark style theme mode rest = Ok tree ->
  exists surfaceStyle slots flat,
    tree = RElement SurfaceComponent rest surfaceStyle slots
    /\ flatten surfaceStyle = Some flat
    /\ flat !! "backgroundColor"
       = Some (Appbar_backgroundColor getAppbarColor theme style)
    /\ flat !! "elevation" = Some (Appbar_elevation theme style).
Proof.
  intros Htree.
  destruct (Appbar_returns _ _ _ _ _ _ _ _ _ _ _ _ _ Htree)
    as (single_row & two_rows & ->).
  eexists _, _, _. split; [reflexivity|]. split; [reflexivity|].
  cbn [flatten fold_left default]. unfold id. split.
  - rewrite lookup_union_r
      by (by rewrite lookup_delete_ne, lookup_delete_eq by done).
    rewrite lookup_union_r by reflexivity.
    rewrite lookup_union_r by reflexivity.
    by apply lookup_union_Some_l.
  - rewrite lookup_union_r by apply lookup_delete_eq.
    by apply lookup_union_Some_l.
Qed.




(** X18: in the legacy design version the [mode] prop has no effect on what
    the Appbar returns. *)
Theorem Appbar_legacy_ignores_mode
    OS children dark style theme rest (mode mode' : option AppbarModes) :
  isV3 theme = false ->
  Appbar_in OS children dark style theme mode rest
  = Appbar_in OS children dark style theme mode' rest.
Proof. intros HV3. unfold Appbar. rewrite HV3. reflexivity. Qed.

End AppbarRendered.




Lemma Appbar_legacy_ignores_mode_witness :
  Appbar Samples.getAppbarColor Samples.renderAppbarContent (num 56)
    Samples.modeAppbarHeight Samples.color_isLight ios
    (RArray [Samples.back; Samples.content]) None SFalsy
    Samples.theme_legacy_dark (Some large) ∅
  = Appbar Samples.getAppbarColor Samples.renderAppbarContent (num 56)
      Samples.modeAppbarHeight Samples.color_isLight ios
      (RArray [Samples.back; Samples.content]) None SFalsy
      Samples.theme_legacy_dark None ∅.
Proof.
  exact (Appbar_legacy_ignores_mode
           Samples.getAppbarColor Samples.renderAppbarContent (num 56)
           Samples.modeAppbarHeight Samples.color_isLight ios
           (RArray [Samples.back; Samples.content]) None SFalsy
           Samples.theme_legacy_dark ∅ (Some large) None eq_refl).
Defined.

(** ** Appbar: the two-row layout *)

(** X19: in the current design version with a mode other than small, and
    children that are all elements, the Appbar returns a surface whose only
    filled slot is the column: a controls row holding the back action
    rendered from all children, the actions rendered from the children with
    a truthy [isLeading] and, in a right-aligned view, the actions rendered
    from the other children, followed by the content row rendered from all
    children.  The column has the center-aligned variant and a centered
    content row exactly in mode center-aligned, and every renderer call gets
    the same isDark flag. *)
Theorem Appbar_two_row_layout
    (getAppbarColor : Theme -> JSValue -> JSValue -> JSValue)
    (renderAppbarContent : RenderArgs.t -> ReactNode)
    (DEFAULT_APPBAR_HEIGHT : JSValue)
    (modeAppbarHeight : AppbarModes -> JSValue)
    (color_isLight : string -> Result bool) (OS : PlatformOS)
    (children : ReactNode) (dark : option bool) (style : StyleProp)
    (theme : Theme) (mode : AppbarModes) (rest : gmap string JSValue)
    (isDark : bool) :
  isV3 theme = true -> mode <> small ->
  forallb isValidElement (Children_toArray children) = true ->
  Appbar_isDark color_isLight dark
    (Appbar_backgroundColor getAppbarColor theme style) = Ok isDark ->
  let render children shouldCenterContent renderOnly :=
    renderAppbarContent
      {| RenderArgs.children := children;
         RenderArgs.isDark := isDark;
         RenderArgs.isV3 := true;
         RenderArgs.shouldCenterContent := shouldCenterContent;
         RenderArgs.renderOnly := Some renderOnly;
         RenderArgs.mode := Some mode |} in
  exists surfaceStyle,
    Appbar getAppbarColor renderAppbarContent DEFAULT_APPBAR_HEIGHT
      modeAppbarHeight color_isLight OS children dark style theme (Some mode)
      rest
    = Ok (RElement SurfaceComponent rest surfaceStyle
            [ RNull;
              RNull;
              RElement View ∅
                (SArr [ SObj styles.columnContainer;
                        if bool_decide (mode = center_aligned)
                        then SObj styles.centerAlignedContainer
                        else SFalsy ])
                [ RElement View ∅ (SObj styles.controlsRow)
                    [ render children None [AppbarBackAction];
                      render
                        (RArray (List.filter leading_flag
                                   (Children_toArray children)))
                        None [AppbarAction];
                      RElement View ∅ (SObj styles.rightActionControls)
                        [ render
                            (RArray
                               (List.filter
                                  (fun c => negb (leading_flag c))
                                  (Children_toArray children)))
                            None [AppbarAction] ] ];
                  render children
                    (Some (bool_decide (mode = center_aligned)))
                    [AppbarContent] ];
              RNull ]).
Proof.
  intros HV3 Hmode Hall Hdark render.
  rewrite (Appbar_v3_two_rows _ _ _ _ _ OS children dark style theme
             (Some mode) rest isDark HV3 Hmode Hdark).
  unfold column, filterAppbarActions. rewrite !filter_actions_spec, Hall.
  cbn [bind default]. eexists. reflexivity.
Qed.

Lemma Appbar_two_row_layout_witness :
  exists surfaceStyle back trailing content,
    Appbar Samples.getAppbarColor Samples.renderAppbarContent (num 56)
      Samples.modeAppbarHeight Samples.color_isLight android
      (RArray [ Samples.back; Samples.leading_action "menu";
                Samples.content; Samples.action "magnify" ])
      (Some false) SFalsy Samples.theme_v3 (Some large) ∅
    = Ok (RElement SurfaceComponent ∅ surfaceStyle
            [ RNull;
              RNull;
              RElement View ∅ (SArr [SObj styles.columnContainer; SFalsy])
                [ RElement View ∅ (SObj styles.controlsRow)
                    [ back;
                      RArray [Samples.leading_action "menu"];
                      RElement View ∅ (SObj styles.rightActionControls)
                        [trailing] ];
                  content ];
              RNull ]).
Proof.
  destruct (Appbar_two_row_layout
              Samples.getAppbarColor Samples.renderAppbarContent (num 56)
              Samples.modeAppbarHeight Samples.color_isLight android
              (RArray [ Samples.back; Samples.leading_action "menu";
                        Samples.content; Samples.action "magnify" ])
              (Some false) SFalsy Samples.theme_v3 large ∅ false
              eq_refl ltac:(discriminate) eq_refl eq_refl)
    as [surfaceStyle Htree].
  eexists surfaceStyle, _, _, _. exact Htree.
Defined.
